(** * LMS-COPILOT chat window: the message exchange loop of [src/main.py]

    A shallow embedding of [ProfessionalChatApp]: the WebSocket frame
    handler [handle_client], the scripted streamed answer
    [stream_bot_response], the two file writers [save_uploaded_file] and
    [handle_file_upload], the thumbnail stub [generate_thumbnail] and the
    chat log operations [add_user_message], [add_bot_message] and
    [add_system_message].

    Conventions of the embedding.
    - A decoded frame is a [json] value, as [json.loads] returns it.
    - The methods run in a state-and-exception monad [M] over a [World]:
      the attributes of the application object, the disk, the frames given
      to [websocket.send] so far and a clock advanced by the sleeps.
    - A Python exception is a value of [exn]; the state reached when it
      was raised is kept, as in Python.
    - Paths follow [posixpath] and [pathlib.PurePosixPath]. *)

From stdpp Require Import gmap strings list fin_maps.
From Stdlib Require Import ZArith Ascii String.

#[local] Set Warnings "-register-all".
#[local] Open Scope string_scope.
#[local] Open Scope Z_scope.

(** ** Strings *)

Module Str.

Definition sep : ascii := "/"%char.

Definition is_sep (c : ascii) : bool := Ascii.eqb c sep.

Definition is_empty (s : string) : bool :=
  match s with EmptyString => true | String _ _ => false end.

(** [s.startswith(p)] *)
Definition startswith (p s : string) : bool := String.prefix p s.

(** [s.endswith("/")] *)
Fixpoint ends_with_sep (s : string) : bool :=
  match s with
  | EmptyString => false
  | String c EmptyString => is_sep c
  | String _ rest => ends_with_sep rest
  end.

(** [p in s] for two strings: [p] occurs in [s] as a substring. *)
Fixpoint contains (p s : string) : bool :=
  String.prefix p s ||
  match s with
  | EmptyString => false
  | String _ rest => contains p rest
  end.

(** [c in s] for one character. *)
Fixpoint has_char (c : ascii) (s : string) : bool :=
  match s with
  | EmptyString => false
  | String d rest => Ascii.eqb c d || has_char c rest
  end.

(** [s.split("/")]: never empty, [""] splits into [[""]]. *)
Fixpoint split (s : string) : list string :=
  match s with
  | EmptyString => [EmptyString]
  | String c rest =>
      if is_sep c then EmptyString :: split rest
      else match split rest with
           | h :: t => String c h :: t
           | [] => [String c EmptyString]
           end
  end.

(** [s[: s.rfind("/") + 1]]: everything up to and including the last
    separator, the empty string when there is none. *)
Fixpoint upto_last_sep (s : string) : string :=
  match s with
  | EmptyString => EmptyString
  | String c rest =>
      if is_sep c || has_char sep rest then String c (upto_last_sep rest)
      else EmptyString
  end.

(** [s == "/" * len(s)] *)
Fixpoint all_sep (s : string) : bool :=
  match s with
  | EmptyString => true
  | String c rest => is_sep c && all_sep rest
  end.

(** [s.rstrip("/")] *)
Fixpoint rstrip_sep (s : string) : string :=
  match s with
  | EmptyString => EmptyString
  | String c rest =>
      let r := rstrip_sep rest in
      if is_sep c && is_empty r then EmptyString else String c r
  end.

(** The characters of a string, each as a string of length one: what
    iterating over a Python [str] yields. *)
Fixpoint chars (s : string) : list string :=
  match s with
  | EmptyString => []
  | String c rest => String c EmptyString :: chars rest
  end.

End Str.

(** ** Paths: [posixpath] and [pathlib] *)

Module PosixPath.

(** One step of the loop of [posixpath.join]. *)
Definition join_step (path b : string) : string :=
  if Str.startswith "/" b then b
  else if Str.is_empty path || Str.ends_with_sep path then path ++ b
  else path ++ "/" ++ b.

(** [os.path.join(a, *p)] on strings. *)
Definition join (a : string) (p : list string) : string :=
  fold_left join_step p a.

(** [os.path.dirname(p)] *)
Definition dirname (p : string) : string :=
  let head := Str.upto_last_sep p in
  if negb (Str.is_empty head) && negb (Str.all_sep head)
  then Str.rstrip_sep head
  else head.

(** A component that [pathlib] keeps when it parses a path: neither
    empty nor ["."]. *)
Definition kept (x : string) : bool :=
  negb (Str.is_empty x) && negb (String.eqb x ".").

(** [PurePosixPath(p).name]: the last kept component, or the empty string
    when the path has none (the empty path, ["."], a bare root). *)
Definition name (p : string) : string :=
  List.last (List.filter kept (Str.split p)) EmptyString.

End PosixPath.

(** ** Decoded JSON

    [json.loads] yields [None], [bool], [int], [float], [str], [list] and
    [dict] with string keys.  A float is carried as its binary64 bit
    pattern: the program never computes with numbers. *)

Inductive json : Type :=
| JNull
| JBool (b : bool)
| JInt (n : Z)
| JFloat (bits : Z)
| JStr (s : string)
| JArr (items : list json)
| JObj (fields : gmap string json).

(** [v == s] for a decoded value [v] and a string literal [s]. *)
Definition eq_str (v : json) (s : string) : bool :=
  match v with
  | JStr t => String.eqb t s
  | _ => false
  end.

(** The fields of a decoded object, no field for any other value. *)
Definition fields_of (v : json) : gmap string json :=
  match v with
  | JObj d => d
  | _ => ∅
  end.

(** ** Exceptions and outcomes *)

Inductive exn : Type :=
| TypeError
| AttributeError
| ValueError
| KeyError
| FileNotFoundError
| FileExistsError
| IsADirectoryError
| NotADirectoryError
| ConnectionClosed.

Inductive outcome (A : Type) : Type :=
| Returned (a : A)
| Raised (e : exn).

Arguments Returned {A} a.
Arguments Raised {A} e.

(** ** The disk

    A location is the list of names from an entry up to the root of the
    file system, the entry's own name first: the parent of a location is
    its tail and the root is the empty list.  There are no symbolic links,
    so [".."] is resolved on the text of the path. *)

Inductive node : Type :=
| Dir
| File (data : string).

Record Disk : Type := mkDisk {
  cwd : list string;
  nodes : gmap (list string) node
}.

Module Fs.

Definition is_dir (ns : gmap (list string) node) (loc : list string) : bool :=
  match loc with
  | [] => true
  | _ => match ns !! loc with Some Dir => true | _ => false end
  end.

Definition exists_ (ns : gmap (list string) node) (loc : list string) : bool :=
  match loc with
  | [] => true
  | _ => match ns !! loc with Some _ => true | None => false end
  end.

(** Following one component of a path from a location. *)
Definition enter (loc : list string) (c : string) : list string :=
  if Str.is_empty c || String.eqb c "." then loc
  else if String.eqb c ".." then tail loc
  else c :: loc.

(** The location a path names: from the root when the path starts with a
    separator, from the working directory otherwise. *)
Definition resolve (d : Disk) (path : string) : list string :=
  fold_left enter (Str.split path)
            (if Str.startswith "/" path then [] else cwd d).

(** The path ends in a separator, ["."] or [".."]: it can only name a
    directory. *)
Definition names_dir (path : string) : bool :=
  let c := List.last (Str.split path) EmptyString in
  Str.is_empty c || String.eqb c "." || String.eqb c "..".

Definition nul : ascii := Ascii.zero.

(** [os.mkdir] at a location. *)
Definition mkdir (ns : gmap (list string) node) (loc : list string)
  : outcome (gmap (list string) node) :=
  if exists_ ns loc then Raised FileExistsError
  else if is_dir ns (tail loc) then Returned (<[loc := Dir]> ns)
  else if exists_ ns (tail loc) then Raised NotADirectoryError
  else Raised FileNotFoundError.

(** [os.makedirs(name, exist_ok=True)] at a location: the missing
    ancestors first (a [FileExistsError] from that recursive call is
    passed over), then the directory itself; the error of the last
    [mkdir] is dropped when the location is a directory by then. *)
Fixpoint makedirs (ns : gmap (list string) node) (loc : list string)
  : outcome (gmap (list string) node) :=
  match loc with
  | [] => Returned ns
  | _ :: parent =>
      let above :=
        if exists_ ns parent then Returned ns
        else match makedirs ns parent with
             | Raised FileExistsError => Returned ns
             | r => r
             end in
      match above with
      | Raised e => Raised e
      | Returned ns1 =>
          match mkdir ns1 loc with
          | Returned ns2 => Returned ns2
          | Raised e => if is_dir ns1 loc then Returned ns1 else Raised e
          end
      end
  end.

(** [open(path, "w")] at a location: the file is created or truncated. *)
Definition create (ns : gmap (list string) node) (loc : list string)
           (must_be_dir : bool) : outcome (gmap (list string) node) :=
  if is_dir ns loc then Raised IsADirectoryError
  else match ns !! loc with
       | Some _ =>
           if must_be_dir then Raised NotADirectoryError
           else Returned (<[loc := File EmptyString]> ns)
       | None =>
           if is_dir ns (tail loc) then
             if must_be_dir then Raised IsADirectoryError
             else Returned (<[loc := File EmptyString]> ns)
           else if exists_ ns (tail loc) then Raised NotADirectoryError
           else Raised FileNotFoundError
       end.

End Fs.

(** ** The application object and the world around it *)

(** An entry of [self.messages]: the dict [{"role": r, "content": c}]. *)
Record ChatMessage : Type := mkChatMessage {
  role : string;
  content : json
}.

Inductive widget_state : Type := NORMAL | DISABLED.

(** One [insert(tk.END, text, tag)] into the text widget; the text is
    [f"{speaker}: {body}\n\n"]. *)
Record Segment : Type := mkSegment {
  speaker : string;
  body : json;
  tag : string
}.

Record TextWidget : Type := mkTextWidget {
  state : widget_state;
  segments : list Segment
}.

(** The attributes of [ProfessionalChatApp] that its methods read or write.
    [self.workspace_root] is assigned once, in [__init__], and is the
    constant [workspace_root] below. *)
Record App : Type := mkApp {
  messages : list ChatMessage;
  chat_display : TextWidget;
  message_entry : string;
  typing_indicator : string;
  connect_button : string;
  is_connected : bool
}.

Record World : Type := mkWorld {
  app : App;
  disk : Disk;
  sent : list json;
  clock_ms : Z
}.

Definition workspace_root : string := "./workspace".

(** The application right after [__init__] and [create_widgets]. *)
Definition init_app : App :=
  {| messages := [];
     chat_display := {| state := DISABLED; segments := [] |};
     message_entry := "";
     typing_indicator := "";
     connect_button := "Connect";
     is_connected := false |}.

Definition set_app (f : App → App) (w : World) : World :=
  {| app := f (app w); disk := disk w; sent := sent w; clock_ms := clock_ms w |}.

Definition set_nodes (ns : gmap (list string) node) (w : World) : World :=
  {| app := app w;
     disk := {| cwd := cwd (disk w); nodes := ns |};
     sent := sent w;
     clock_ms := clock_ms w |}.

Definition set_messages (ms : list ChatMessage) (a : App) : App :=
  {| messages := ms;
     chat_display := chat_display a;
     message_entry := message_entry a;
     typing_indicator := typing_indicator a;
     connect_button := connect_button a;
     is_connected := is_connected a |}.

Definition set_chat_display (t : TextWidget) (a : App) : App :=
  {| messages := messages a;
     chat_display := t;
     message_entry := message_entry a;
     typing_indicator := typing_indicator a;
     connect_button := connect_button a;
     is_connected := is_connected a |}.

Definition set_message_entry (s : string) (a : App) : App :=
  {| messages := messages a;
     chat_display := chat_display a;
     message_entry := s;
     typing_indicator := typing_indicator a;
     connect_button := connect_button a;
     is_connected := is_connected a |}.

Definition set_typing_indicator (s : string) (a : App) : App :=
  {| messages := messages a;
     chat_display := chat_display a;
     message_entry := message_entry a;
     typing_indicator := s;
     connect_button := connect_button a;
     is_connected := is_connected a |}.

Definition set_connection (button : string) (connected : bool) (a : App) : App :=
  {| messages := messages a;
     chat_display := chat_display a;
     message_entry := message_entry a;
     typing_indicator := typing_indicator a;
     connect_button := button;
     is_connected := connected |}.

(** ** The monad of the methods *)

Definition M (A : Type) : Type := World → outcome A * World.

Definition ret {A} (a : A) : M A := λ w, (Returned a, w).

Definition bind {A B} (m : M A) (k : A → M B) : M B :=
  λ w, match m w with
       | (Returned a, w1) => k a w1
       | (Raised e, w1) => (Raised e, w1)
       end.

Definition raise {A} (e : exn) : M A := λ w, (Raised e, w).

Definition modify (f : World → World) : M unit := λ w, (Returned tt, f w).

Definition gets {A} (f : World → A) : M A := λ w, (Returned (f w), w).

(** Lifting a computation without state. *)
Definition lift {A} (r : outcome A) : M A := λ w, (r, w).

(** [try: m except e: pass] *)
Definition except_pass (e : exn → bool) (m : M unit) : M unit :=
  λ w, match m w with
       | (Raised x, w1) => if e x then (Returned tt, w1) else (Raised x, w1)
       | r => r
       end.

Declare Scope py_scope.
Delimit Scope py_scope with py.
Notation "x '<-' m ';;' k" := (bind m (λ x, k))
  (at level 100, m at next level, right associativity) : py_scope.
Notation "m ';;' k" := (bind m (λ _, k))
  (at level 100, right associativity) : py_scope.
#[local] Open Scope py_scope.

(** [for x in xs: body(x)] *)
Fixpoint for_each {A} (xs : list A) (body : A → M unit) : M unit :=
  match xs with
  | [] => ret tt
  | x :: rest => body x ;; for_each rest body
  end.

(** ** Python operations on decoded values *)

(** [key in data] *)
Definition py_in (key : string) (data : json) : M bool :=
  match data with
  | JObj d => ret (match d !! key with Some _ => true | None => false end)
  | JArr items => ret (existsb (λ v, eq_str v key) items)
  | JStr s => ret (Str.contains key s)
  | _ => raise TypeError
  end.

(** [data[key]] for a string [key] *)
Definition py_getitem (data : json) (key : string) : M json :=
  match data with
  | JObj d => match d !! key with
              | Some v => ret v
              | None => raise KeyError
              end
  | _ => raise TypeError
  end.

(** [data.get(key, default)] *)
Definition py_get (data : json) (key : string) (default : json) : M json :=
  match data with
  | JObj d => ret (match d !! key with Some v => v | None => default end)
  | _ => raise AttributeError
  end.

(** [iter(v)]: the elements of a list, the keys of a dict, the characters
    of a string; anything else is not iterable. *)
Definition py_iter (v : json) : M (list json) :=
  match v with
  | JArr items => ret items
  | JObj d => ret (JStr <$> (map_to_list d).*1)
  | JStr s => ret (JStr <$> Str.chars s)
  | _ => raise TypeError
  end.

(** [os.fspath(v)] for a decoded value: only a string is a path. *)
Definition fspath (v : json) : M string :=
  match v with
  | JStr s => ret s
  | _ => raise TypeError
  end.

(** [os.path.join(a, *p)], the components being decoded values. *)
Fixpoint fspaths (vs : list json) : M (list string) :=
  match vs with
  | [] => ret []
  | v :: rest => s <- fspath v ;; ss <- fspaths rest ;; ret (s :: ss)
  end.

Definition os_path_join (a : string) (p : list json) : M string :=
  ss <- fspaths p ;; ret (PosixPath.join a ss).

(** [v.startswith(prefix)] *)
Definition py_startswith (v : json) (prefix : string) : M bool :=
  match v with
  | JStr s => ret (Str.startswith prefix s)
  | _ => raise AttributeError
  end.

(** ** System calls *)

(** The checks every call makes on a path before it reaches the disk. *)
Definition checked_path (path : string) : M unit :=
  if Str.has_char Fs.nul path then raise ValueError
  else if Str.is_empty path then raise FileNotFoundError
  else ret tt.

(** [os.makedirs(path, exist_ok=True)] *)
Definition os_makedirs (path : string) : M unit :=
  checked_path path ;;
  d <- gets disk ;;
  ns <- lift (Fs.makedirs (nodes d) (Fs.resolve d path)) ;;
  modify (set_nodes ns).

(** [open(path, "w")]: returns the location of the opened file. *)
Definition open_w (path : string) : M (list string) :=
  checked_path path ;;
  d <- gets disk ;;
  let loc := Fs.resolve d path in
  ns <- lift (Fs.create (nodes d) loc (Fs.names_dir path)) ;;
  modify (set_nodes ns) ;;
  ret loc.

(** [f.write(content)] on a file just opened for writing, then the close
    at the end of the [with] block. *)
Definition file_write (loc : list string) (content : json) : M unit :=
  match content with
  | JStr s => d <- gets disk ;; modify (set_nodes (<[loc := File s]> (nodes d)))
  | _ => raise TypeError
  end.

(** [await websocket.send(json.dumps(frame))]: the frame is recorded as
    the dict given to [json.dumps]. *)
Definition send (frame : json) : M unit :=
  modify (λ w, {| app := app w; disk := disk w;
                  sent := sent w ++ [frame]; clock_ms := clock_ms w |}).

(** [await asyncio.sleep(t)] and [time.sleep(t)], in milliseconds. *)
Definition sleep (ms : Z) : M unit :=
  modify (λ w, {| app := app w; disk := disk w;
                  sent := sent w; clock_ms := clock_ms w + ms |}).

(** ** The text widget *)

(** [self.chat_display.config(state=st)] *)
Definition display_config (st : widget_state) : M unit :=
  modify (set_app (λ a,
    set_chat_display {| state := st; segments := segments (chat_display a) |} a)).

(** [self.chat_display.insert(tk.END, text, tag)]: a disabled widget
    ignores the insertion. *)
Definition display_insert (seg : Segment) : M unit :=
  modify (set_app (λ a,
    match state (chat_display a) with
    | NORMAL =>
        set_chat_display {| state := NORMAL;
                            segments := segments (chat_display a) ++ [seg] |} a
    | DISABLED => a
    end)).

(** [self.messages.append({"role": r, "content": message})] *)
Definition messages_append (r : string) (message : json) : M unit :=
  modify (set_app (λ a,
    set_messages (messages a ++ [{| role := r; content := message |}]) a)).

(** ** The methods of [ProfessionalChatApp] *)

Definition add_user_message (message : json) : M unit :=
  messages_append "user" message ;;
  display_config NORMAL ;;
  display_insert {| speaker := "User"; body := message; tag := "user" |} ;;
  display_config DISABLED.

Definition add_bot_message (message : json) : M unit :=
  messages_append "assistant" message ;;
  display_config NORMAL ;;
  display_insert {| speaker := "Bot"; body := message; tag := "bot" |} ;;
  display_config DISABLED.

Definition add_system_message (message : json) : M unit :=
  messages_append "system" message ;;
  display_config NORMAL ;;
  display_insert {| speaker := "System"; body := message; tag := "system" |} ;;
  display_config DISABLED.

(** The line feed of the Python literals. *)
Definition nl : string := String "010" EmptyString.

Definition response_chunks : list string :=
  [ "Processing your request...";
    nl ++ "Analyzing code structure...";
    nl ++ "Generating solution...";
    nl ++ "Here's the complete implementation:" ++ nl ++ nl ++ "```python" ++ nl;
    "def example_function():" ++ nl ++ "    # Your code here" ++ nl
      ++ "    pass" ++ nl ++ nl ++ "# Additional code" ++ nl
      ++ "print('Hello World')" ++ nl ++ "```" ].

Definition chunk_frame (chunk : string) : json :=
  JObj {[ "type" := JStr "response_chunk"; "content" := JStr chunk ]}.

Definition end_frame : json :=
  JObj {[ "type" := JStr "response_end"; "content" := JStr "" ]}.

Definition stream_bot_response (user_message : json) : M unit :=
  sleep 500 ;;
  for_each response_chunks (λ chunk, send (chunk_frame chunk) ;; sleep 100) ;;
  send end_frame.

Definition save_uploaded_file (file_data : json) : M unit :=
  filename <- py_get file_data "name" (JStr "unknown") ;;
  content <- py_get file_data "content" (JStr "") ;;
  file_type <- py_get file_data "type" (JStr "text/plain") ;;
  is_image <- py_startswith file_type "image" ;;
  file_path <- (if is_image
                then os_path_join workspace_root [JStr "media"; filename]
                else os_path_join workspace_root [filename]) ;;
  os_makedirs (PosixPath.dirname file_path) ;;
  f <- open_w file_path ;;
  file_write f content.

Definition handle_file_upload (data : json) : M unit :=
  file_content <- py_get data "content" (JStr "") ;;
  file_name <- py_get data "name" (JStr "file") ;;
  save_path <- os_path_join workspace_root [file_name] ;;
  f <- open_w save_path ;;
  file_write f file_content.

Definition thumbnail_record (file_path : string) : json :=
  JObj {[ "thumbnail_url" :=
            JStr ("/thumbnails/" ++ PosixPath.name file_path ++ ".thumb");
          "size" := JStr "100x100" ]}.

Definition generate_thumbnail (file_path : json) : M json :=
  p <- fspath file_path ;; ret (thumbnail_record p).

(** ['type' in data and data['type'] == t] *)
Definition type_is (data : json) (t : string) : M bool :=
  present <- py_in "type" data ;;
  if present then v <- py_getitem data "type" ;; ret (eq_str v t)
  else ret false.

Definition thumbnail_response (thumbnail_data file_path : json) : json :=
  JObj {[ "type" := JStr "thumbnail_response";
          "data" := thumbnail_data;
          "filePath" := file_path ]}.

(** The block [if 'media' in data: for file_data in data['media']: ...]
    of [handle_client]. *)
Definition save_media (data : json) : M unit :=
  has_media <- py_in "media" data ;;
  if has_media then
    media <- py_getitem data "media" ;;
    items <- py_iter media ;;
    for_each items save_uploaded_file
  else ret tt.

(** The body of the [async for] loop of [handle_client], for one decoded
    frame. *)
Definition handle_frame (data : json) : M unit :=
  is_message <- type_is data "message" ;;
  if is_message then
    user_message <- py_get data "content" (JStr "") ;;
    add_user_message user_message ;;
    save_media data ;;
    stream_bot_response user_message
  else
    is_upload <- type_is data "file_upload" ;;
    if is_upload then handle_file_upload data
    else
      is_thumbnail <- type_is data "thumbnail_request" ;;
      if is_thumbnail then
        file_path <- py_get data "filePath" (JStr "") ;;
        thumbnail_data <- generate_thumbnail file_path ;;
        send (thumbnail_response thumbnail_data file_path)
      else ret tt.

(** [handle_client]: the frames of one connection, in order; an exception
    ends the loop, and only [ConnectionClosed] is passed over. *)
Definition handle_client (frames : list json) : M unit :=
  except_pass (λ e, match e with ConnectionClosed => true | _ => false end)
              (for_each frames handle_frame).

(** ** The window *)

Definition responses : list string :=
  [ "I can help you with that. What specific task are we working on?";
    "Based on your project structure, here's what I recommend...";
    "Let me analyze your code and provide better suggestions.";
    "Here's how you might implement this feature:" ].

Definition update_with_bot_response (user_message : json) : M unit :=
  modify (set_app (set_typing_indicator "")) ;;
  add_bot_message (JStr (List.hd EmptyString responses)).

(** The body of the thread started by [send_message]; the two callbacks
    given to [root.after] run in the order they were queued. *)
Definition simulate_typing_and_response (user_message : json) : M unit :=
  modify (set_app (set_typing_indicator "Bot is typing...")) ;;
  sleep 1000 ;;
  update_with_bot_response user_message.

(** [send_message], up to the start of its thread. *)
Definition send_message : M unit :=
  user_input <- gets (λ w, message_entry (app w)) ;;
  if Str.is_empty user_input then ret tt
  else
    add_user_message (JStr user_input) ;;
    modify (set_app (set_message_entry "")).

Definition start_websocket_server : M unit :=
  modify (set_app (set_connection "Disconnect" true)).

Definition disconnect_websocket : M unit :=
  modify (set_app (set_connection "Connect" false)).

Definition toggle_connection : M unit :=
  connected <- gets (λ w, is_connected (app w)) ;;
  if connected then disconnect_websocket else start_websocket_server.

(** What can happen to a running application: a method of the chat log is
    called, the user types or clicks, a thread body runs, a frame arrives. *)
Inductive operation : Type :=
| AddUser (message : json)
| AddBot (message : json)
| AddSystem (message : json)
| TypeEntry (text : string)
| SendMessage
| SimulateTyping (user_message : json)
| UpdateWithBotResponse (user_message : json)
| ToggleConnection
| Frame (data : json).

Definition run_operation (op : operation) : M unit :=
  match op with
  | AddUser m => add_user_message m
  | AddBot m => add_bot_message m
  | AddSystem m => add_system_message m
  | TypeEntry text => modify (set_app (set_message_entry text))
  | SendMessage => send_message
  | SimulateTyping m => simulate_typing_and_response m
  | UpdateWithBotResponse m => update_with_bot_response m
  | ToggleConnection => toggle_connection
  | Frame data => handle_frame data
  end.

(** The world after a method has run, whether it returned or raised. *)
Definition after {A} (m : M A) (w : World) : World := (m w).2.

(** The operations of a run, one after the other; an exception ends the
    operation that raised it, not the run. *)
Definition run (ops : list operation) (w : World) : World :=
  fold_left (λ w1 op, after (run_operation op) w1) ops w.

(** The chat log of a world. *)
Definition log (w : World) : list ChatMessage := messages (app w).

(** The files of a world. *)
Definition files (w : World) : gmap (list string) node := nodes (disk w).

(** ** Worlds and frames used as concrete inputs *)

(** A disk with the working directory [/home/app] and nothing in it. *)
Definition fresh_disk : Disk :=
  {| cwd := ["app"; "home"];
     nodes := {[ ["home"] := Dir; ["app"; "home"] := Dir ]} |}.

(** The application just started, on [fresh_disk], nothing sent yet. *)
Definition fresh_world : World :=
  {| app := init_app; disk := fresh_disk; sent := []; clock_ms := 0 |}.

(** The frames a [message] frame is answered with. *)
Definition scripted_frames : list json :=
  (chunk_frame <$> response_chunks) ++ [end_frame].

(** The entry a method of the chat log appends. *)
Inductive sender : Type := User | Assistant | System.

Definition role_of (s : sender) : string :=
  match s with
  | User => "user"
  | Assistant => "assistant"
  | System => "system"
  end.

Definition add_operation (a : sender * json) : operation :=
  match a.1 with
  | User => AddUser a.2
  | Assistant => AddBot a.2
  | System => AddSystem a.2
  end.

Definition entry_of (a : sender * json) : ChatMessage :=
  {| role := role_of a.1; content := a.2 |}.

Definition known_role (e : ChatMessage) : Prop :=
  role e = "user" ∨ role e = "assistant" ∨ role e = "system".

(** A regular file sits at a location, or at one of the directories above
    it: [os.makedirs] cannot make the location a directory. *)
Definition is_file (ns : gmap (list string) node) (loc : list string) : bool :=
  match ns !! loc with Some (File _) => true | _ => false end.

Fixpoint blocked (ns : gmap (list string) node) (loc : list string) : bool :=
  match loc with
  | [] => false
  | _ :: parent => is_file ns loc || blocked ns parent
  end.

(** The content a [message] frame is logged with: [data.get('content', '')]. *)
Definition content_of (d : gmap string json) : json :=
  match d !! "content" with Some v => v | None => JStr "" end.

(** Frames used as concrete inputs. *)

(** [{"type": "message", "content": "hello"}] *)
Definition text_fields : gmap string json :=
  {[ "type" := JStr "message"; "content" := JStr "hello" ]}.

(** [{"type": "message", "content": "again"}] *)
Definition again_fields : gmap string json :=
  {[ "type" := JStr "message"; "content" := JStr "again" ]}.

(** [{"type": "message"}] *)
Definition bare_fields : gmap string json :=
  {[ "type" := JStr "message" ]}.

(** A media item [{"name": n, "content": c, "type": t}]. *)
Definition media_item (n : string) (c : json) (t : string) : json :=
  JObj {[ "name" := JStr n; "content" := c; "type" := JStr t ]}.

(** [{"type": "message", "content": text, "media": items}] *)
Definition message_with_media (text : string) (items : list json)
  : gmap string json :=
  {[ "type" := JStr "message"; "content" := JStr text; "media" := JArr items ]}.

(** A message whose one media item has the empty name. *)
Definition empty_name_fields : gmap string json :=
  message_with_media "hello" [media_item "" (JStr "x") "text/plain"].

(** [{"type": "message", "media": ["a.png"]}]: no content, and a media
    item that is a string. *)
Definition string_media_fields : gmap string json :=
  {[ "type" := JStr "message"; "media" := JArr [JStr "a.png"] ]}.

(** Two messages, the first saving a file [notes], the second a file
    [todo.txt] inside a directory [notes]. *)
Definition notes_file_fields : gmap string json :=
  message_with_media "one" [media_item "notes" (JStr "n") "text/plain"].

Definition notes_dir_fields : gmap string json :=
  message_with_media "two" [media_item "notes/todo.txt" (JStr "t") "text/plain"].

(** [{"type": "ping"}] *)
Definition ping_fields : gmap string json :=
  {[ "type" := JStr "ping" ]}.

(** [{"type": "thumbnail_request"}] *)
Definition bare_thumbnail_fields : gmap string json :=
  {[ "type" := JStr "thumbnail_request" ]}.

(** [{"type": "file_upload", "name": "a.txt", "content": "hi"}] *)
Definition upload_fields : gmap string json :=
  {[ "type" := JStr "file_upload"; "name" := JStr "a.txt";
     "content" := JStr "hi" ]}.

(** What a written file holds: the string, or nothing when the content was
    not a string and [write] raised. *)
Definition written (content : json) : string :=
  match content with JStr s => s | _ => EmptyString end.

Definition write_outcome (content : json) : outcome unit :=
  match content with JStr _ => Returned tt | _ => Raised TypeError end.

(** Where [save_uploaded_file] writes an item with a string name and a
    string type. *)
Definition target_path (n t : string) : string :=
  if Str.startswith "image" t
  then PosixPath.join workspace_root ["media"; n]
  else PosixPath.join workspace_root [n].

(** A disk where the workspace exists and holds an older [a.txt]. *)
Definition used_world : World :=
  set_nodes (<[ ["a.txt"; "workspace"; "app"; "home"] := File "old" ]>
             (<[ ["workspace"; "app"; "home"] := Dir ]> (nodes fresh_disk)))
            fresh_world.

(** A method preserves a projection of the world: the projection is the
    same after the method as before, whether it returned or raised. *)
Definition preserves {X A} (f : World → X) (m : M A) : Prop :=
  ∀ w, f (after m w) = f w.

(** A plain file name: not empty, no separator, no NUL, neither ["."] nor
    [".."]. *)
Definition simple_name (n : string) : bool :=
  negb (Str.is_empty n) && negb (Str.has_char Str.sep n)
  && negb (Str.has_char Fs.nul n)
  && negb (String.eqb n ".") && negb (String.eqb n "..").

(** The directory [save_uploaded_file] writes an item of a given type in. *)
Definition target_dir (d : Disk) (t : string) : list string :=
  if Str.startswith "image" t
  then "media" :: "workspace" :: cwd d
  else "workspace" :: cwd d.

(** The path a [thumbnail_request] frame asks about:
    [data.get('filePath', '')]. *)
Definition path_of (d : gmap string json) : json :=
  match d !! "filePath" with Some v => v | None => JStr "" end.

(** A decoded value that is not an object and that the type tests of
    [handle_client] pass over without a fault: a list without the element
    "type", a string without the substring "type". *)
Definition passed_over (data : json) : bool :=
  match data with
  | JArr items => negb (existsb (λ v, eq_str v "type") items)
  | JStr s => negb (Str.contains "type" s)
  | _ => false
  end.



(** The connect button names the action that [toggle_connection] would
    take. *)
Definition button_agrees (a : App) : Prop :=
  connect_button a = if is_connected a then "Disconnect" else "Connect".

Definition is_toggle (op : operation) : bool :=
  match op with ToggleConnection => true | _ => false end.

(** The entries a frame adds to the log. *)
Definition logged_by (data : json) : list ChatMessage :=
  match data with
  | JObj d =>
      if match d !! "type" with Some v => eq_str v "message" | None => false end
      then [{| role := "user"; content := content_of d |}]
      else []
  | _ => []
  end.

(** A frame with type "message" and no media field. *)
Definition plain_message (d : gmap string json) : Prop :=
  d !! "type" = Some (JStr "message") ∧ d !! "media" = None.


(** * Properties *)

(** ** Paths *)

Example join_root_name :
  PosixPath.join workspace_root ["a.txt"] = "./workspace/a.txt".
Proof. reflexivity. Qed.

Example join_media_name :
  PosixPath.join workspace_root ["media"; "x.png"] = "./workspace/media/x.png".
Proof. reflexivity. Qed.

Example join_absolute_name :
  PosixPath.join workspace_root ["/etc/x"] = "/etc/x".
Proof. reflexivity. Qed.

Example join_empty_name :
  PosixPath.join workspace_root [""] = "./workspace/".
Proof. reflexivity. Qed.

Example dirname_of_media_file :
  PosixPath.dirname "./workspace/media/x.png" = "./workspace/media".
Proof. reflexivity. Qed.

Example dirname_of_root_entry : PosixPath.dirname "/x" = "/".
Proof. reflexivity. Qed.

Example dirname_strips_separators : PosixPath.dirname "a//b" = "a".
Proof. reflexivity. Qed.

Example dirname_of_bare_name : PosixPath.dirname "abc" = "".
Proof. reflexivity. Qed.

Example name_of_file : PosixPath.name "/tmp/foo.jpg" = "foo.jpg".
Proof. reflexivity. Qed.

Example name_of_empty_path : PosixPath.name "" = "".
Proof. reflexivity. Qed.

Example name_skips_dots : PosixPath.name "a/b/./" = "b".
Proof. reflexivity. Qed.

Example name_of_root : PosixPath.name "/" = "".
Proof. reflexivity. Qed.

Example name_keeps_parent : PosixPath.name "a/.." = "..".
Proof. reflexivity. Qed.

Example split_keeps_empty_parts : Str.split "a//b/" = ["a"; ""; "b"; ""].
Proof. reflexivity. Qed.

(** ** What a method leaves unchanged *)

Section Preserved.

Context {X : Type} (f : World → X).

Lemma preserves_ret {A} (a : A) : preserves f (ret a).
Proof. intros w. reflexivity. Qed.

Lemma preserves_raise {A} (e : exn) : preserves f (@raise A e).
Proof. intros w. reflexivity. Qed.

Lemma preserves_lift {A} (r : outcome A) : preserves f (lift r).
Proof. intros w. reflexivity. Qed.

Lemma preserves_gets {A} (g : World → A) : preserves f (gets g).
Proof. intros w. reflexivity. Qed.

Lemma preserves_modify (g : World → World) :
  (∀ w, f (g w) = f w) → preserves f (modify g).
Proof. intros Hg w. apply Hg. Qed.

Lemma preserves_bind {A B} (m : M A) (k : A → M B) :
  preserves f m → (∀ a, preserves f (k a)) → preserves f (bind m k).
Proof.
  intros Hm Hk w. specialize (Hm w). unfold after, bind in *.
  destruct (m w) as [[a|e] w1]; simpl in *.
  - rewrite <- Hm. apply Hk.
  - exact Hm.
Qed.

Lemma preserves_for_each {A} (xs : list A) (body : A → M unit) :
  (∀ x, preserves f (body x)) → preserves f (for_each xs body).
Proof.
  intros Hbody. induction xs as [|x xs IH]; simpl.
  - apply preserves_ret.
  - apply preserves_bind; [apply Hbody | intros _; exact IH].
Qed.

Lemma preserves_except_pass (e : exn → bool) (m : M unit) :
  preserves f m → preserves f (except_pass e m).
Proof.
  intros Hm w. specialize (Hm w). unfold after, except_pass in *.
  destruct (m w) as [[a|x] w1]; simpl in *; [exact Hm|].
  destruct (e x); exact Hm.
Qed.

End Preserved.

(** One step of a proof that a method preserves a projection of the world:
    split a sequence, take a branch, or open a method. *)
Ltac preserve_step :=
  lazymatch goal with
  | |- preserves _ (bind _ _) => apply preserves_bind; [|intros ?]
  | |- preserves _ (ret _) => apply preserves_ret
  | |- preserves _ (raise _) => apply preserves_raise
  | |- preserves _ (lift _) => apply preserves_lift
  | |- preserves _ (gets _) => apply preserves_gets
  | |- preserves _ (modify _) => apply preserves_modify; intros ?; reflexivity
  | |- preserves _ (for_each _ _) => apply preserves_for_each; intros ?
  | |- preserves _ (except_pass _ _) => apply preserves_except_pass
  | |- preserves _ (if ?b then _ else _) => destruct b
  | |- preserves _ (match ?x with _ => _ end) => destruct x
  end.

Ltac preserve := repeat preserve_step.

(** A closed statement about a run, settled by running the methods. *)
Ltac by_running :=
  repeat match goal with |- _ ∧ _ => split end; vm_compute; reflexivity.

Section Frames.

Context {X : Type} (f : World → X).

Lemma py_in_preserves key data : preserves f (py_in key data).
Proof. unfold py_in. preserve. Qed.

Lemma py_getitem_preserves data key : preserves f (py_getitem data key).
Proof. unfold py_getitem. preserve. Qed.

Lemma py_get_preserves data key default : preserves f (py_get data key default).
Proof. unfold py_get. preserve. Qed.

Lemma py_iter_preserves v : preserves f (py_iter v).
Proof. unfold py_iter. preserve. Qed.

Lemma fspath_preserves v : preserves f (fspath v).
Proof. unfold fspath. preserve. Qed.

Lemma os_path_join_preserves a p : preserves f (os_path_join a p).
Proof.
  unfold os_path_join. apply preserves_bind; [|intros ?; apply preserves_ret].
  induction p as [|v p IH]; simpl; [apply preserves_ret|].
  apply preserves_bind; [apply fspath_preserves|intros ?].
  apply preserves_bind; [exact IH|intros ?; apply preserves_ret].
Qed.

Lemma py_startswith_preserves v prefix : preserves f (py_startswith v prefix).
Proof. unfold py_startswith. preserve. Qed.

Lemma type_is_preserves data t : preserves f (type_is data t).
Proof.
  unfold type_is. apply preserves_bind; [apply py_in_preserves|intros present].
  destruct present; [|apply preserves_ret].
  apply preserves_bind; [apply py_getitem_preserves|intros ?; apply preserves_ret].
Qed.

Lemma generate_thumbnail_preserves p : preserves f (generate_thumbnail p).
Proof.
  unfold generate_thumbnail.
  apply preserves_bind; [apply fspath_preserves|intros ?; apply preserves_ret].
Qed.

Lemma checked_path_preserves path : preserves f (checked_path path).
Proof. unfold checked_path. preserve. Qed.

End Frames.

(** The writers touch neither the socket nor the chat log. *)
Section Writers.

Context {X : Type} (f : World → X).
Hypothesis f_nodes : ∀ ns w, f (set_nodes ns w) = f w.

Lemma os_makedirs_preserves path : preserves f (os_makedirs path).
Proof.
  unfold os_makedirs.
  apply preserves_bind; [apply checked_path_preserves|intros _].
  apply preserves_bind; [apply preserves_gets|intros d].
  apply preserves_bind; [apply preserves_lift|intros ns].
  apply preserves_modify. intros w. apply f_nodes.
Qed.

Lemma open_w_preserves path : preserves f (open_w path).
Proof.
  unfold open_w.
  apply preserves_bind; [apply checked_path_preserves|intros _].
  apply preserves_bind; [apply preserves_gets|intros d].
  apply preserves_bind; [apply preserves_lift|intros ns].
  apply preserves_bind; [|intros _; apply preserves_ret].
  apply preserves_modify. intros w. apply f_nodes.
Qed.

Lemma file_write_preserves loc c : preserves f (file_write loc c).
Proof.
  unfold file_write. destruct c; try apply preserves_raise.
  apply preserves_bind; [apply preserves_gets|intros d].
  apply preserves_modify. intros w. apply f_nodes.
Qed.

Lemma save_uploaded_file_preserves v : preserves f (save_uploaded_file v).
Proof.
  unfold save_uploaded_file.
  repeat (apply preserves_bind; [apply py_get_preserves|intros ?]).
  apply preserves_bind; [apply py_startswith_preserves|intros is_image].
  apply preserves_bind; [destruct is_image; apply os_path_join_preserves|intros ?].
  apply preserves_bind; [apply os_makedirs_preserves|intros _].
  apply preserves_bind; [apply open_w_preserves|intros ?].
  apply file_write_preserves.
Qed.

Lemma handle_file_upload_preserves v : preserves f (handle_file_upload v).
Proof.
  unfold handle_file_upload.
  repeat (apply preserves_bind; [apply py_get_preserves|intros ?]).
  apply preserves_bind; [apply os_path_join_preserves|intros ?].
  apply preserves_bind; [apply open_w_preserves|intros ?].
  apply file_write_preserves.
Qed.

Lemma save_media_preserves data : preserves f (save_media data).
Proof.
  unfold save_media.
  apply preserves_bind; [apply py_in_preserves|intros has_media].
  destruct has_media; [|apply preserves_ret].
  apply preserves_bind; [apply py_getitem_preserves|intros ?].
  apply preserves_bind; [apply py_iter_preserves|intros ?].
  apply preserves_for_each. intros ?. apply save_uploaded_file_preserves.
Qed.

End Writers.

(** ** How the methods run *)

Lemma eq_str_true v s : eq_str v s = true ↔ v = JStr s.
Proof.
  destruct v; simpl; try (split; [discriminate|intros H; discriminate H]).
  rewrite String.eqb_eq. split; [intros ->; reflexivity|intros [= ->]; reflexivity].
Qed.

Lemma eq_str_other v s : v ≠ JStr s → eq_str v s = false.
Proof.
  intros Hne. destruct (eq_str v s) eqn:E; [|reflexivity].
  apply eq_str_true in E. contradiction.
Qed.

Lemma type_is_object d t w :
  type_is (JObj d) t w =
  (Returned (match d !! "type" with Some v => eq_str v t | None => false end), w).
Proof.
  unfold type_is, bind, py_in, py_getitem, ret.
  destruct (d !! "type"); reflexivity.
Qed.

Lemma add_message_run r sp tg m w :
  (messages_append r m ;;
   display_config NORMAL ;;
   display_insert {| speaker := sp; body := m; tag := tg |} ;;
   display_config DISABLED) w =
  (Returned tt,
   set_app (λ a,
     set_chat_display
       {| state := DISABLED;
          segments := segments (chat_display a)
                      ++ [{| speaker := sp; body := m; tag := tg |}] |}
       (set_messages (messages a ++ [{| role := r; content := m |}]) a)) w).
Proof. reflexivity. Qed.

Lemma stream_chunks_run chunks w :
  for_each chunks (λ chunk, send (chunk_frame chunk) ;; sleep 100) w =
  (Returned tt,
   {| app := app w; disk := disk w;
      sent := sent w ++ (chunk_frame <$> chunks);
      clock_ms := clock_ms w + 100 * Z.of_nat (List.length chunks) |}).
Proof.
  revert w. induction chunks as [|c chunks IH]; intros w.
  - destruct w. simpl. rewrite app_nil_r, Z.add_0_r. reflexivity.
  - change (for_each (c :: chunks) ?b) with (b c ;; for_each chunks b).
    unfold bind at 1. unfold bind at 1. unfold send at 1, sleep at 1, modify.
    rewrite IH. simpl sent. simpl clock_ms. simpl app. simpl disk.
    rewrite <- app_assoc. f_equal. f_equal; try reflexivity.
    rewrite length_cons. lia.
Qed.

Lemma stream_bot_response_run m w :
  stream_bot_response m w =
  (Returned tt,
   {| app := app w; disk := disk w;
      sent := sent w ++ scripted_frames;
      clock_ms := clock_ms w + 1000 |}).
Proof.
  unfold stream_bot_response, bind. unfold sleep at 1, modify.
  rewrite stream_chunks_run. unfold send, modify, scripted_frames. simpl sent.
  simpl clock_ms. simpl app. simpl disk. rewrite <- app_assoc.
  f_equal. f_equal; try reflexivity.
  change (List.length response_chunks) with 5%nat. lia.
Qed.

Lemma message_frame_run d w :
  d !! "type" = Some (JStr "message") →
  handle_frame (JObj d) w =
  match save_media (JObj d) (after (add_user_message (content_of d)) w) with
  | (Returned _, w2) =>
      (Returned tt,
       {| app := app w2; disk := disk w2;
          sent := sent w2 ++ scripted_frames;
          clock_ms := clock_ms w2 + 1000 |})
  | (Raised e, w2) => (Raised e, w2)
  end.
Proof.
  intros Htype. unfold handle_frame. unfold bind at 1.
  rewrite type_is_object, Htype.
  replace (eq_str (JStr "message") "message") with true by reflexivity.
  unfold bind at 1. unfold py_get at 1, ret at 1. fold (content_of d).
  unfold bind at 1. unfold add_user_message, after. rewrite add_message_run.
  unfold bind at 1. simpl snd.
  destruct (save_media (JObj d) _) as [[[]|e] w2]; [|reflexivity].
  apply stream_bot_response_run.
Qed.

(** The user entry is in the log whatever happens to the media. *)
Lemma message_frame_log d w :
  d !! "type" = Some (JStr "message") →
  log (after (handle_frame (JObj d)) w) =
  (log w ++ [{| role := "user"; content := content_of d |}])%list.
Proof.
  intros Htype. unfold after at 1. rewrite (message_frame_run _ _ Htype).
  pose proof (save_media_preserves log (λ _ _, eq_refl) (JObj d)
                (after (add_user_message (content_of d)) w)) as Hlog.
  unfold after at 1 in Hlog.
  destruct (save_media (JObj d) _) as [[[]|e] w2];
    unfold log in *; simpl in *; rewrite Hlog; reflexivity.
Qed.

(** A [message] frame that is handled without a fault is answered with the
    script, after whatever had been sent before. *)
Lemma message_frame_sent d w :
  d !! "type" = Some (JStr "message") →
  (handle_frame (JObj d) w).1 = Returned tt →
  sent (after (handle_frame (JObj d)) w) = (sent w ++ scripted_frames)%list.
Proof.
  intros Htype. unfold after at 1. rewrite (message_frame_run _ _ Htype).
  pose proof (save_media_preserves sent (λ _ _, eq_refl) (JObj d)
                (after (add_user_message (content_of d)) w)) as Hsent.
  unfold after at 1 in Hsent.
  destruct (save_media (JObj d) _) as [[[]|e] w2]; simpl in *.
  - intros _. rewrite Hsent. reflexivity.
  - discriminate.
Qed.

(** A fault in a [message] frame is a fault of its media: without a
    [media] field the frame is handled to the end. *)
Lemma message_frame_without_media d w :
  d !! "type" = Some (JStr "message") →
  d !! "media" = None →
  (handle_frame (JObj d) w).1 = Returned tt.
Proof.
  intros Htype Hmedia. rewrite (message_frame_run _ _ Htype).
  unfold save_media, bind, py_in, ret. rewrite Hmedia. reflexivity.
Qed.

(** A frame that faults before the answer starts sends nothing. *)
Lemma message_frame_fault d w e :
  d !! "type" = Some (JStr "message") →
  (handle_frame (JObj d) w).1 = Raised e →
  sent (after (handle_frame (JObj d)) w) = sent w.
Proof.
  intros Htype. unfold after at 1. rewrite (message_frame_run _ _ Htype).
  pose proof (save_media_preserves sent (λ _ _, eq_refl) (JObj d)
                (after (add_user_message (content_of d)) w)) as Hsent.
  unfold after at 1 in Hsent.
  destruct (save_media (JObj d) _) as [[[]|x] w2]; simpl in *.
  - discriminate.
  - intros _. exact Hsent.
Qed.

(** ** The scripted answer *)

(** C1, as amended.  A frame with type "message" that is handled without a
    fault (its media, if any, are all persisted) is answered, whatever its
    content, with the five response_chunk frames of the script in order and
    then one response_end frame with empty content. *)
Theorem message_frame_emits_script (d : gmap string json) (w : World) :
  d !! "type" = Some (JStr "message") →
  (handle_frame (JObj d) w).1 = Returned tt →
  sent (after (handle_frame (JObj d)) w) =
  (sent w ++
   [ JObj {[ "type" := JStr "response_chunk";
             "content" := JStr "Processing your request..." ]};
     JObj {[ "type" := JStr "response_chunk";
             "content" := JStr (nl ++ "Analyzing code structure...") ]};
     JObj {[ "type" := JStr "response_chunk";
             "content" := JStr (nl ++ "Generating solution...") ]};
     JObj {[ "type" := JStr "response_chunk";
             "content" := JStr (nl ++ "Here's the complete implementation:"
                                ++ nl ++ nl ++ "```python" ++ nl) ]};
     JObj {[ "type" := JStr "response_chunk";
             "content" := JStr ("def example_function():" ++ nl
                                ++ "    # Your code here" ++ nl
                                ++ "    pass" ++ nl ++ nl
                                ++ "# Additional code" ++ nl
                                ++ "print('Hello World')" ++ nl ++ "```") ]};
     JObj {[ "type" := JStr "response_end"; "content" := JStr "" ]} ])%list.
Proof.
  intros Htype Hok. rewrite (message_frame_sent d w Htype Hok).
  f_equal.
Qed.

Lemma message_frame_emits_script_witness :
  text_fields !! "type" = Some (JStr "message")
  ∧ (handle_frame (JObj text_fields) fresh_world).1 = Returned tt
  ∧ sent (after (handle_frame (JObj text_fields)) fresh_world) =
    (sent fresh_world ++ scripted_frames)%list.
Proof.
  split; [reflexivity|]. split; [vm_compute; reflexivity|].
  apply (message_frame_emits_script text_fields fresh_world);
    [reflexivity | vm_compute; reflexivity].
Defined.

(** C1, counterexample.  The frame
    [{"type": "message", "content": "hello",
      "media": [{"name": "", "content": "x", "type": "text/plain"}]}]
    has type "message" and is answered with no frame at all: the media item
    is to be written at [./workspace/], which is a directory, and the fault
    ends the handler before the answer starts. *)
Lemma empty_name_media_sends_nothing :
  empty_name_fields !! "type" = Some (JStr "message")
  ∧ (handle_frame (JObj empty_name_fields) fresh_world).1 = Raised IsADirectoryError
  ∧ sent (after (handle_frame (JObj empty_name_fields)) fresh_world) = [].
Proof. by_running. Qed.

(** C9, as amended.  A frame with type "message" and no content field is
    logged as a user entry with content "" whatever happens next, and it is
    answered with the whole script when it is handled without a fault (its
    media, if any, are all persisted). *)
Theorem message_without_content (d : gmap string json) (w : World) :
  d !! "type" = Some (JStr "message") →
  d !! "content" = None →
  log (after (handle_frame (JObj d)) w) =
    (log w ++ [{| role := "user"; content := JStr "" |}])%list
  ∧ ((handle_frame (JObj d) w).1 = Returned tt →
     sent (after (handle_frame (JObj d)) w) = (sent w ++ scripted_frames)%list).
Proof.
  intros Htype Hcontent. split.
  - rewrite (message_frame_log d w Htype). unfold content_of.
    rewrite Hcontent. reflexivity.
  - apply message_frame_sent, Htype.
Qed.

Lemma message_without_content_witness :
  bare_fields !! "type" = Some (JStr "message")
  ∧ bare_fields !! "content" = None
  ∧ (handle_frame (JObj bare_fields) fresh_world).1 = Returned tt
  ∧ log (after (handle_frame (JObj bare_fields)) fresh_world) =
      [{| role := "user"; content := JStr "" |}]
  ∧ sent (after (handle_frame (JObj bare_fields)) fresh_world) = scripted_frames.
Proof.
  assert (Hok : (handle_frame (JObj bare_fields) fresh_world).1 = Returned tt)
    by (vm_compute; reflexivity).
  destruct (message_without_content bare_fields fresh_world eq_refl eq_refl)
    as [Hlog Hsent].
  split; [reflexivity|]. split; [reflexivity|]. split; [exact Hok|].
  split; [exact Hlog | exact (Hsent Hok)].
Defined.

(** C9, counterexample.  The frame [{"type": "message", "media": ["a.png"]}]
    has no content field; its user entry is logged with content "", and then
    [save_uploaded_file] is given the string "a.png", which has no [get]:
    the handler ends with AttributeError and no frame is sent. *)
Lemma string_media_sends_nothing :
  string_media_fields !! "type" = Some (JStr "message")
  ∧ string_media_fields !! "content" = None
  ∧ (handle_frame (JObj string_media_fields) fresh_world).1 = Raised AttributeError
  ∧ log (after (handle_frame (JObj string_media_fields)) fresh_world) =
      [{| role := "user"; content := JStr "" |}]
  ∧ sent (after (handle_frame (JObj string_media_fields)) fresh_world) = [].
Proof. by_running. Qed.

(** ** Frames in sequence *)

Lemma handle_client_two a b w :
  (handle_frame a w).1 = Returned tt →
  (handle_frame b (after (handle_frame a) w)).1 = Returned tt →
  handle_client [a; b] w = (Returned tt, after (handle_frame b) (after (handle_frame a) w)).
Proof.
  unfold handle_client, except_pass, after. simpl for_each. unfold bind.
  destruct (handle_frame a w) as [r1 w1]. simpl. intros ->.
  destruct (handle_frame b w1) as [r2 w2]. simpl. intros ->. reflexivity.
Qed.

(** C8, as amended.  Two frames with type "message" handled one after the
    other, neither with a fault, are each answered with the whole script:
    the second answer follows the first and is the same whatever the first
    frame was. *)
Theorem two_messages_two_scripts (d1 d2 : gmap string json) (w : World) :
  d1 !! "type" = Some (JStr "message") →
  d2 !! "type" = Some (JStr "message") →
  (handle_frame (JObj d1) w).1 = Returned tt →
  (handle_frame (JObj d2) (after (handle_frame (JObj d1)) w)).1 = Returned tt →
  (handle_client [JObj d1; JObj d2] w).1 = Returned tt
  ∧ sent (after (handle_frame (JObj d1)) w) = (sent w ++ scripted_frames)%list
  ∧ sent (after (handle_client [JObj d1; JObj d2]) w) =
    (sent (after (handle_frame (JObj d1)) w) ++ scripted_frames)%list.
Proof.
  intros Ht1 Ht2 Hok1 Hok2.
  rewrite (message_frame_sent d1 w Ht1 Hok1).
  unfold after at 1. rewrite (handle_client_two _ _ w Hok1 Hok2). simpl.
  split; [reflexivity|]. split; [reflexivity|].
  rewrite (message_frame_sent d2 _ Ht2 Hok2).
  rewrite (message_frame_sent d1 w Ht1 Hok1). reflexivity.
Qed.

Lemma two_messages_two_scripts_witness :
  text_fields !! "type" = Some (JStr "message")
  ∧ again_fields !! "type" = Some (JStr "message")
  ∧ (handle_frame (JObj text_fields) fresh_world).1 = Returned tt
  ∧ (handle_frame (JObj again_fields)
       (after (handle_frame (JObj text_fields)) fresh_world)).1 = Returned tt
  ∧ sent (after (handle_client [JObj text_fields; JObj again_fields]) fresh_world) =
    (sent (after (handle_frame (JObj text_fields)) fresh_world) ++ scripted_frames)%list.
Proof.
  assert (H1 : (handle_frame (JObj text_fields) fresh_world).1 = Returned tt)
    by (vm_compute; reflexivity).
  assert (H2 : (handle_frame (JObj again_fields)
                  (after (handle_frame (JObj text_fields)) fresh_world)).1
               = Returned tt)
    by (vm_compute; reflexivity).
  repeat (split; [first [reflexivity | assumption]|]).
  exact (proj2 (proj2 (two_messages_two_scripts text_fields again_fields
                         fresh_world eq_refl eq_refl H1 H2))).
Defined.

(** C8, counterexample.  The second of these two frames is answered with the
    whole script when it is the first frame of a connection, and with
    nothing when it follows the first: the first has written a file
    [./workspace/notes], so the directory [./workspace/notes] that the second
    needs cannot be made, and the handler ends with FileExistsError.  The
    files written for one frame decide what the next one is answered. *)
Lemma earlier_upload_silences_later_message :
  notes_file_fields !! "type" = Some (JStr "message")
  ∧ notes_dir_fields !! "type" = Some (JStr "message")
  ∧ sent (after (handle_frame (JObj notes_dir_fields)) fresh_world) = scripted_frames
  ∧ sent (after (handle_frame (JObj notes_file_fields)) fresh_world) = scripted_frames
  ∧ (handle_frame (JObj notes_dir_fields)
       (after (handle_frame (JObj notes_file_fields)) fresh_world)).1
    = Raised FileExistsError
  ∧ sent (after (handle_client [JObj notes_file_fields; JObj notes_dir_fields])
            fresh_world) = scripted_frames.
Proof. by_running. Qed.

(** ** Frames of an unknown type *)

Lemma type_unmatched (d : gmap string json) t :
  d !! "type" ≠ Some (JStr t) →
  match d !! "type" with Some v => eq_str v t | None => false end = false.
Proof.
  intros Hne. destruct (d !! "type") as [v|]; [|reflexivity].
  apply eq_str_other. intros ->. contradiction.
Qed.

(** C5.  A decoded frame whose type field is absent, or is none of
    "message", "file_upload" and "thumbnail_request", is handled without a
    fault and leaves the world as it was: no frame is sent, no file is
    written, nothing is appended to the chat log or shown in the window. *)
Theorem unknown_type_ignored (d : gmap string json) (w : World) :
  d !! "type" ≠ Some (JStr "message") →
  d !! "type" ≠ Some (JStr "file_upload") →
  d !! "type" ≠ Some (JStr "thumbnail_request") →
  handle_frame (JObj d) w = (Returned tt, w).
Proof.
  intros Hmessage Hupload Hthumbnail. unfold handle_frame.
  unfold bind at 1. rewrite type_is_object, (type_unmatched d _ Hmessage).
  unfold bind at 1. rewrite type_is_object, (type_unmatched d _ Hupload).
  unfold bind at 1. rewrite type_is_object, (type_unmatched d _ Hthumbnail).
  reflexivity.
Qed.

Lemma unknown_type_ignored_witness :
  ping_fields !! "type" ≠ Some (JStr "message")
  ∧ ping_fields !! "type" ≠ Some (JStr "file_upload")
  ∧ ping_fields !! "type" ≠ Some (JStr "thumbnail_request")
  ∧ handle_frame (JObj ping_fields) fresh_world = (Returned tt, fresh_world).
Proof.
  assert (H : ∀ t, String.eqb "ping" t = false → ping_fields !! "type" ≠ Some (JStr t)).
  { intros t Ht [= <-]. discriminate Ht. }
  repeat (split; [apply H; reflexivity|]).
  apply (unknown_type_ignored ping_fields fresh_world); apply H; reflexivity.
Defined.

(** ** The thumbnail stub *)

Lemma generate_thumbnail_run p w :
  generate_thumbnail (JStr p) w = (Returned (thumbnail_record p), w).
Proof. reflexivity. Qed.

(** C10.  A frame with type "thumbnail_request" and no filePath field is
    answered with exactly one thumbnail_response frame, whose filePath is ""
    and whose data has the URL "/thumbnails/.thumb" and the size "100x100";
    nothing else changes. *)
Theorem thumbnail_request_without_path (d : gmap string json) (w : World) :
  d !! "type" = Some (JStr "thumbnail_request") →
  d !! "filePath" = None →
  handle_frame (JObj d) w =
  (Returned tt,
   {| app := app w; disk := disk w;
      sent := sent w ++
        [ JObj {[ "type" := JStr "thumbnail_response";
                  "data" := JObj {[ "thumbnail_url" := JStr "/thumbnails/.thumb";
                                    "size" := JStr "100x100" ]};
                  "filePath" := JStr "" ]} ];
      clock_ms := clock_ms w |}).
Proof.
  intros Htype Hpath. unfold handle_frame.
  unfold bind at 1. rewrite type_is_object, Htype.
  replace (eq_str (JStr "thumbnail_request") "message") with false by reflexivity.
  unfold bind at 1. rewrite type_is_object, Htype.
  replace (eq_str (JStr "thumbnail_request") "file_upload") with false by reflexivity.
  unfold bind at 1. rewrite type_is_object, Htype.
  replace (eq_str (JStr "thumbnail_request") "thumbnail_request") with true
    by reflexivity.
  unfold bind, py_get, ret. rewrite Hpath. reflexivity.
Qed.

Lemma thumbnail_request_without_path_witness :
  bare_thumbnail_fields !! "type" = Some (JStr "thumbnail_request")
  ∧ bare_thumbnail_fields !! "filePath" = None
  ∧ (handle_frame (JObj bare_thumbnail_fields) fresh_world).1 = Returned tt
  ∧ List.length (sent (after (handle_frame (JObj bare_thumbnail_fields)) fresh_world))
    = 1%nat.
Proof.
  split; [reflexivity|]. split; [reflexivity|]. unfold after.
  rewrite (thumbnail_request_without_path bare_thumbnail_fields fresh_world
             eq_refl eq_refl).
  split; reflexivity.
Defined.

(** C3, as amended.  For the path "/tmp/foo.jpg" the stub returns the record
    with the fields thumbnail_url = "/thumbnails/foo.jpg.thumb" and
    size = "100x100", and a second call returns the same record; neither
    call changes anything. *)
Theorem thumbnail_of_foo_jpg (w : World) :
  (first <- generate_thumbnail (JStr "/tmp/foo.jpg") ;;
   second <- generate_thumbnail (JStr "/tmp/foo.jpg") ;;
   ret (first, second)) w =
  (Returned
     (JObj {[ "thumbnail_url" := JStr "/thumbnails/foo.jpg.thumb";
              "size" := JStr "100x100" ]},
      JObj {[ "thumbnail_url" := JStr "/thumbnails/foo.jpg.thumb";
              "size" := JStr "100x100" ]}),
   w).
Proof. reflexivity. Qed.

(** C3, counterexample.  The record returned for "/tmp/foo.jpg" is not the
    record with the fields thumbnailUrl and size: its first field is named
    thumbnail_url, and it has no field thumbnailUrl. *)
Lemma thumbnail_field_is_not_thumbnailUrl :
  (generate_thumbnail (JStr "/tmp/foo.jpg") fresh_world).1 ≠
    Returned (JObj {[ "thumbnailUrl" := JStr "/thumbnails/foo.jpg.thumb";
                      "size" := JStr "100x100" ]})
  ∧ fields_of (thumbnail_record "/tmp/foo.jpg") !! "thumbnailUrl" = None
  ∧ fields_of (thumbnail_record "/tmp/foo.jpg") !! "thumbnail_url" =
      Some (JStr "/thumbnails/foo.jpg.thumb").
Proof.
  split; [|split; vm_compute; reflexivity].
  intros H.
  apply (f_equal (λ r, match r with
                       | Returned v => fields_of v !! "thumbnailUrl"
                       | Raised _ => None
                       end)) in H.
  vm_compute in H. discriminate H.
Qed.

(** C6.  On two paths with the same base name the stub returns the same
    record, and it returns it without touching the world: no file is read
    or written, nothing is sent or logged. *)
Theorem thumbnail_depends_on_name_only (p1 p2 : string) (w1 w2 : World) :
  PosixPath.name p1 = PosixPath.name p2 →
  ∃ record,
    generate_thumbnail (JStr p1) w1 = (Returned record, w1)
    ∧ generate_thumbnail (JStr p2) w2 = (Returned record, w2).
Proof.
  intros Hname. exists (thumbnail_record p1). split; [reflexivity|].
  rewrite generate_thumbnail_run. unfold thumbnail_record. rewrite Hname.
  reflexivity.
Qed.

Lemma thumbnail_depends_on_name_only_witness :
  PosixPath.name "/tmp/foo.jpg" = PosixPath.name "uploads/./foo.jpg/"
  ∧ ∃ record,
      generate_thumbnail (JStr "/tmp/foo.jpg") fresh_world
        = (Returned record, fresh_world)
      ∧ generate_thumbnail (JStr "uploads/./foo.jpg/") fresh_world
        = (Returned record, fresh_world).
Proof.
  split; [reflexivity|].
  apply (thumbnail_depends_on_name_only "/tmp/foo.jpg" "uploads/./foo.jpg/").
  reflexivity.
Defined.

(** ** The disk *)

Lemma exists_not_file_is_dir ns loc :
  Fs.exists_ ns loc = true → blocked ns loc = false → Fs.is_dir ns loc = true.
Proof.
  destruct loc as [|c parent]; [reflexivity|].
  unfold Fs.exists_, Fs.is_dir. simpl blocked. unfold is_file.
  destruct (ns !! (c :: parent)) as [[|data]|]; simpl; congruence.
Qed.

(** [os.makedirs] succeeds when no regular file sits at the location or
    above it; it leaves a directory there and changes nothing but the
    locations it had to create, all of them at or above the location. *)
Lemma makedirs_clear ns loc :
  blocked ns loc = false →
  ∃ ns', Fs.makedirs ns loc = Returned ns'
         ∧ Fs.is_dir ns' loc = true
         ∧ ∀ k, ns' !! k = ns !! k ∨ (ns' !! k = Some Dir ∧ k `suffix_of` loc).
Proof.
  induction loc as [|c parent IH]; intros Hclear.
  - exists ns. repeat split. intros k. left. reflexivity.
  - pose proof Hclear as Hboth. simpl in Hboth.
    apply orb_false_iff in Hboth as [Hfile Hparent].
    assert (Hmk : ∀ ns1,
      Fs.is_dir ns1 parent = true →
      (∀ k, ns1 !! k = ns !! k ∨ (ns1 !! k = Some Dir ∧ k `suffix_of` parent)) →
      ∃ ns', match Fs.mkdir ns1 (c :: parent) with
             | Returned ns2 => Returned ns2
             | Raised e => if Fs.is_dir ns1 (c :: parent) then Returned ns1
                           else Raised e
             end = Returned ns'
             ∧ Fs.is_dir ns' (c :: parent) = true
             ∧ ∀ k, ns' !! k = ns !! k
                    ∨ (ns' !! k = Some Dir ∧ k `suffix_of` c :: parent)).
    { intros ns1 Hdir Hframe. unfold Fs.mkdir.
      assert (Hframe' : ∀ k, ns1 !! k = ns !! k
                ∨ (ns1 !! k = Some Dir ∧ k `suffix_of` c :: parent)).
      { intros k. destruct (Hframe k) as [?|[? ?]]; [left; assumption|].
        right. split; [assumption|]. apply suffix_cons_r. assumption. }
      destruct (Fs.exists_ ns1 (c :: parent)) eqn:Hex.
      - assert (Hd : Fs.is_dir ns1 (c :: parent) = true).
        { unfold Fs.exists_ in Hex. unfold Fs.is_dir.
          destruct (Hframe (c :: parent)) as [Heq|[Heq _]]; rewrite Heq in *;
            [|reflexivity].
          unfold is_file in Hfile.
          destruct (ns !! (c :: parent)) as [[|data]|]; congruence. }
        rewrite Hd. exists ns1. auto.
      - simpl tail. rewrite Hdir. exists (<[c :: parent := Dir]> ns1).
        split; [reflexivity|]. split.
        + unfold Fs.is_dir. rewrite lookup_insert_eq. reflexivity.
        + intros k. destruct (decide (k = c :: parent)) as [->|Hne].
          * right. rewrite lookup_insert_eq. split; reflexivity.
          * rewrite lookup_insert_ne by congruence. apply Hframe'. }
    simpl Fs.makedirs. destruct (Fs.exists_ ns parent) eqn:Hex.
    + apply Hmk.
      * apply exists_not_file_is_dir; assumption.
      * intros k. left. reflexivity.
    + destruct (IH Hparent) as (ns1 & Hrun & Hdir & Hframe).
      rewrite Hrun. apply Hmk; assumption.
Qed.

(** [open(path, "w")] on a location that is not a directory, in a
    directory that exists, creates or truncates the file. *)
Lemma create_in_directory ns target :
  Fs.is_dir ns target = false →
  Fs.is_dir ns (tail target) = true →
  Fs.create ns target false = Returned (<[target := File EmptyString]> ns).
Proof.
  intros Htarget Hparent. unfold Fs.create. rewrite Htarget, Hparent.
  destruct (ns !! target); reflexivity.
Qed.

(** The three last steps of [save_uploaded_file], on a path whose
    directory can be made and which is not itself a directory. *)
Lemma persist_run path content w c parent :
  Str.has_char Fs.nul path = false →
  Str.is_empty (PosixPath.dirname path) = false →
  Str.has_char Fs.nul (PosixPath.dirname path) = false →
  Str.is_empty path = false →
  Fs.names_dir path = false →
  Fs.resolve (disk w) path = c :: parent →
  Fs.resolve (disk w) (PosixPath.dirname path) = parent →
  blocked (files w) parent = false →
  Fs.is_dir (files w) (c :: parent) = false →
  ∃ ns,
    (os_makedirs (PosixPath.dirname path) ;;
     f <- open_w path ;;
     file_write f content) w = (write_outcome content, set_nodes ns w)
    ∧ ns !! (c :: parent) = Some (File (written content)).
Proof.
  intros Hnul Hdempty Hdnul Hempty Hnames Htarget Hdir Hclear Hnotdir.
  destruct (makedirs_clear _ _ Hclear) as (ns1 & Hrun & Hisdir & Hframe).
  assert (Hnotdir1 : Fs.is_dir ns1 (c :: parent) = false).
  { unfold Fs.is_dir in *. destruct (Hframe (c :: parent)) as [->|[_ Hsuffix]].
    - exact Hnotdir.
    - apply suffix_length in Hsuffix. simpl in Hsuffix. lia. }
  unfold os_makedirs, open_w, checked_path.
  rewrite Hnul, Hdempty, Hdnul, Hempty, Hnames.
  unfold bind, gets, lift, modify, ret. simpl.
  rewrite Hdir. unfold files in Hrun. rewrite Hrun. simpl.
  change (Fs.resolve _ path) with (Fs.resolve (disk w) path). rewrite Htarget.
  rewrite (create_in_directory ns1 (c :: parent) Hnotdir1 Hisdir). simpl.
  destruct content; simpl;
    eexists; (split; [reflexivity|]); apply lookup_insert_eq.
Qed.

(** ** The workspace writer *)

Lemma media_item_fields n c t :
  let fd := fields_of (media_item n c t) in
  fd !! "name" = Some (JStr n) ∧ fd !! "content" = Some c
  ∧ fd !! "type" = Some (JStr t).
Proof. repeat split. Qed.

Lemma save_uploaded_file_item n c t w :
  save_uploaded_file (media_item n c t) w =
  (os_makedirs (PosixPath.dirname (target_path n t)) ;;
   f <- open_w (target_path n t) ;;
   file_write f c) w.
Proof.
  destruct (media_item_fields n c t) as (Hn & Hc & Ht).
  unfold save_uploaded_file, media_item in *. simpl fields_of in *.
  unfold bind at 1. unfold py_get at 1. rewrite Hn. unfold ret at 1.
  unfold bind at 1. unfold py_get at 1. rewrite Hc. unfold ret at 1.
  unfold bind at 1. unfold py_get at 1. rewrite Ht. unfold ret at 1.
  unfold bind at 1. unfold py_startswith at 1, ret at 1.
  unfold bind at 1. unfold target_path.
  destruct (Str.startswith "image" t); reflexivity.
Qed.

(** C4.  Given [{name: "a.txt", content: "hi", type: "text/plain"}] the
    writer returns and leaves a file at [<root>/a.txt] holding exactly "hi";
    given [{name: "x.png", content: c, type: "image/png"}] it leaves the
    file at [<root>/media/x.png], for any content [c] (holding [c] when [c]
    is a string).  The disk is taken as usable: no regular file sits where
    a directory of the path is needed, and the target is not a directory. *)
Theorem workspace_writer_examples (w : World) :
  (blocked (files w) (Fs.resolve (disk w) workspace_root) = false →
   Fs.is_dir (files w)
     (Fs.resolve (disk w) (PosixPath.join workspace_root ["a.txt"])) = false →
   let item := media_item "a.txt" (JStr "hi") "text/plain" in
   let w' := after (save_uploaded_file item) w in
   (save_uploaded_file item w).1 = Returned tt
   ∧ files w' !! Fs.resolve (disk w') (PosixPath.join workspace_root ["a.txt"])
     = Some (File "hi"))
  ∧ (∀ c : json,
     blocked (files w)
       (Fs.resolve (disk w) (PosixPath.join workspace_root ["media"])) = false →
     Fs.is_dir (files w)
       (Fs.resolve (disk w) (PosixPath.join workspace_root ["media"; "x.png"]))
       = false →
     let item := media_item "x.png" c "image/png" in
     let w' := after (save_uploaded_file item) w in
     (save_uploaded_file item w).1 = write_outcome c
     ∧ files w' !! Fs.resolve (disk w')
                     (PosixPath.join workspace_root ["media"; "x.png"])
       = Some (File (written c))).
Proof.
  split.
  - intros Hclear Hnotdir item w'. subst item w'. unfold after.
    rewrite save_uploaded_file_item.
    destruct (persist_run "./workspace/a.txt" (JStr "hi") w
                "a.txt" ("workspace" :: cwd (disk w)))
      as (ns & Hrun & Hfile); try reflexivity; try assumption.
    change (target_path "a.txt" "text/plain") with "./workspace/a.txt".
    rewrite Hrun. split; [reflexivity|]. exact Hfile.
  - intros c Hclear Hnotdir item w'. subst item w'. unfold after.
    rewrite save_uploaded_file_item.
    destruct (persist_run "./workspace/media/x.png" c w
                "x.png" ("media" :: "workspace" :: cwd (disk w)))
      as (ns & Hrun & Hfile); try reflexivity; try assumption.
    change (target_path "x.png" "image/png") with "./workspace/media/x.png".
    rewrite Hrun. split; [reflexivity|]. exact Hfile.
Qed.

Lemma workspace_writer_examples_witness :
  blocked (files fresh_world) (Fs.resolve (disk fresh_world) workspace_root) = false
  ∧ Fs.is_dir (files fresh_world)
      (Fs.resolve (disk fresh_world) (PosixPath.join workspace_root ["a.txt"]))
    = false
  ∧ blocked (files fresh_world)
      (Fs.resolve (disk fresh_world) (PosixPath.join workspace_root ["media"]))
    = false
  ∧ Fs.is_dir (files fresh_world)
      (Fs.resolve (disk fresh_world)
         (PosixPath.join workspace_root ["media"; "x.png"])) = false
  ∧ files (after (save_uploaded_file (media_item "a.txt" (JStr "hi") "text/plain"))
             fresh_world)
      !! ["a.txt"; "workspace"; "app"; "home"] = Some (File "hi")
  ∧ files (after (save_uploaded_file (media_item "x.png" (JStr "pixels") "image/png"))
             fresh_world)
      !! ["x.png"; "media"; "workspace"; "app"; "home"] = Some (File "pixels").
Proof.
  destruct (workspace_writer_examples fresh_world) as [Htext Himage].
  do 4 (split; [vm_compute; reflexivity|]).
  split.
  - apply Htext; vm_compute; reflexivity.
  - apply (Himage (JStr "pixels")); vm_compute; reflexivity.
Defined.

(** ** Direct uploads *)

Lemma file_upload_run d w :
  d !! "type" = Some (JStr "file_upload") →
  handle_frame (JObj d) w = handle_file_upload (JObj d) w.
Proof.
  intros Htype. unfold handle_frame.
  unfold bind at 1. rewrite type_is_object, Htype.
  replace (eq_str (JStr "file_upload") "message") with false by reflexivity.
  unfold bind at 1. rewrite type_is_object, Htype.
  replace (eq_str (JStr "file_upload") "file_upload") with true by reflexivity.
  reflexivity.
Qed.

(** A [file_upload] frame is never acknowledged and never logged. *)
Lemma file_upload_is_silent d w :
  d !! "type" = Some (JStr "file_upload") →
  sent (after (handle_frame (JObj d)) w) = sent w
  ∧ log (after (handle_frame (JObj d)) w) = log w.
Proof.
  intros Htype. unfold after. rewrite (file_upload_run d w Htype). split.
  - apply (handle_file_upload_preserves sent (λ _ _, eq_refl)).
  - apply (handle_file_upload_preserves log (λ _ _, eq_refl)).
Qed.

(** In a workspace that exists, the upload is written at [<root>/<name>]
    over the file that was there. *)
Example upload_overwrites :
  files used_world !! ["a.txt"; "workspace"; "app"; "home"] = Some (File "old")
  ∧ (handle_frame (JObj upload_fields) used_world).1 = Returned tt
  ∧ files (after (handle_frame (JObj upload_fields)) used_world)
      !! ["a.txt"; "workspace"; "app"; "home"] = Some (File "hi").
Proof. by_running. Qed.

(** C2, the code at the failing input.  On a disk where the workspace
    directory does not exist yet, the frame
    [{"type": "file_upload", "name": "a.txt", "content": "hi"}] is not
    persisted: [handle_file_upload] opens [./workspace/a.txt] without
    making the directory, [open] raises FileNotFoundError and the disk is
    left as it was.  [save_uploaded_file], given the same payload on the
    same disk, makes [./workspace] and writes the file. *)
Theorem upload_into_missing_workspace :
  upload_fields !! "type" = Some (JStr "file_upload")
  ∧ Fs.exists_ (files fresh_world) (Fs.resolve (disk fresh_world) workspace_root)
    = false
  ∧ handle_frame (JObj upload_fields) fresh_world
    = (Raised FileNotFoundError, fresh_world)
  ∧ (save_uploaded_file (JObj upload_fields) fresh_world).1 = Returned tt
  ∧ Fs.is_dir (files (after (save_uploaded_file (JObj upload_fields)) fresh_world))
      (Fs.resolve (disk fresh_world) workspace_root) = true
  ∧ files (after (save_uploaded_file (JObj upload_fields)) fresh_world)
      !! ["a.txt"; "workspace"; "app"; "home"] = Some (File "hi").
Proof. by_running. Qed.

(** ** The chat log *)

Lemma type_is_true data t w w1 :
  type_is data t w = (Returned true, w1) →
  ∃ d, data = JObj d ∧ d !! "type" = Some (JStr t).
Proof.
  destruct data as [| | | | s |items|d]; try discriminate.
  - unfold type_is, bind, py_in, py_getitem, ret, raise.
    destruct (Str.contains "type" s); discriminate.
  - unfold type_is, bind, py_in, py_getitem, ret, raise.
    destruct (existsb _ items); discriminate.
  - rewrite type_is_object. intros [= Heq _]. exists d. split; [reflexivity|].
    destruct (d !! "type") as [v|]; [|discriminate].
    apply eq_str_true in Heq. subst v. reflexivity.
Qed.

(** The branches of [handle_frame] other than the [message] one leave the
    chat log alone. *)
Lemma other_branches_log data :
  preserves log
    (is_upload <- type_is data "file_upload" ;;
     if is_upload then handle_file_upload data
     else
       is_thumbnail <- type_is data "thumbnail_request" ;;
       if is_thumbnail then
         file_path <- py_get data "filePath" (JStr "") ;;
         thumbnail_data <- generate_thumbnail file_path ;;
         send (thumbnail_response thumbnail_data file_path)
       else ret tt).
Proof.
  apply preserves_bind; [apply type_is_preserves|intros is_upload].
  destruct is_upload.
  { apply (handle_file_upload_preserves log (λ _ _, eq_refl)). }
  apply preserves_bind; [apply type_is_preserves|intros is_thumbnail].
  destruct is_thumbnail; [|apply preserves_ret].
  apply preserves_bind; [apply py_get_preserves|intros file_path].
  apply preserves_bind; [apply generate_thumbnail_preserves|intros thumbnail_data].
  apply preserves_modify. intros w. reflexivity.
Qed.

(** A frame appends one user entry to the log, or nothing. *)
Lemma handle_frame_log data w :
  log (after (handle_frame data) w) = log w
  ∨ ∃ c, log (after (handle_frame data) w) =
         (log w ++ [{| role := "user"; content := c |}])%list.
Proof.
  pose proof (type_is_preserves log data "message" w) as Htype.
  pose proof (other_branches_log data) as Hother.
  destruct (type_is data "message" w) as [[[|]|e] w1] eqn:Hrun.
  - destruct (type_is_true _ _ _ _ Hrun) as (d & -> & Hd).
    right. exists (content_of d). apply message_frame_log, Hd.
  - left. unfold after, handle_frame, bind. rewrite Hrun.
    unfold after in Htype. rewrite Hrun in Htype. simpl in Htype.
    rewrite <- Htype. apply Hother.
  - left. unfold after, handle_frame, bind. rewrite Hrun.
    unfold after in Htype. rewrite Hrun in Htype. exact Htype.
Qed.

Lemma add_user_message_log m w :
  log (after (add_user_message m) w) =
  (log w ++ [{| role := "user"; content := m |}])%list.
Proof. reflexivity. Qed.

Lemma add_bot_message_log m w :
  log (after (add_bot_message m) w) =
  (log w ++ [{| role := "assistant"; content := m |}])%list.
Proof. reflexivity. Qed.

Lemma add_system_message_log m w :
  log (after (add_system_message m) w) =
  (log w ++ [{| role := "system"; content := m |}])%list.
Proof. reflexivity. Qed.

(** Every operation leaves the log it found as a prefix of the log it
    leaves, and the entries it adds have one of the three roles. *)
Lemma run_operation_log op w :
  ∃ new, log (after (run_operation op) w) = (log w ++ new)%list
         ∧ Forall known_role new.
Proof.
  assert (Hnone : ∀ w', log w' = log w →
            ∃ new, log w' = (log w ++ new)%list ∧ Forall known_role new).
  { intros w' ->. exists []. rewrite app_nil_r. split; [reflexivity|constructor]. }
  assert (Hone : ∀ w' r c, known_role {| role := r; content := c |} →
            log w' = (log w ++ [{| role := r; content := c |}])%list →
            ∃ new, log w' = (log w ++ new)%list ∧ Forall known_role new).
  { intros w' r c Hrole ->. eexists. split; [reflexivity|].
    constructor; [exact Hrole|constructor]. }
  destruct op as [m|m|m|text| |m|m| |data]; simpl run_operation.
  - apply (Hone _ "user" m); [left; reflexivity|reflexivity].
  - apply (Hone _ "assistant" m); [right; left; reflexivity|reflexivity].
  - apply (Hone _ "system" m); [right; right; reflexivity|reflexivity].
  - apply Hnone. reflexivity.
  - unfold after, send_message, bind, gets.
    destruct (Str.is_empty (message_entry (app w))).
    + apply Hnone. reflexivity.
    + apply (Hone _ "user" (JStr (message_entry (app w))));
        [left; reflexivity|reflexivity].
  - apply (Hone _ "assistant" (JStr (List.hd EmptyString responses)));
      [right; left; reflexivity|reflexivity].
  - apply (Hone _ "assistant" (JStr (List.hd EmptyString responses)));
      [right; left; reflexivity|reflexivity].
  - unfold after, toggle_connection, bind, gets.
    destruct (is_connected (app w)); apply Hnone; reflexivity.
  - destruct (handle_frame_log data w) as [Hsame|[c Hadd]].
    + apply Hnone, Hsame.
    + apply (Hone _ "user" c); [left; reflexivity|exact Hadd].
Qed.

Lemma run_log ops w :
  ∃ new, log (run ops w) = (log w ++ new)%list ∧ Forall known_role new.
Proof.
  revert w. induction ops as [|op ops IH]; intros w.
  - exists []. rewrite app_nil_r. split; [reflexivity|constructor].
  - destruct (run_operation_log op w) as (new1 & Hlog1 & Hroles1).
    destruct (IH (after (run_operation op) w)) as (new2 & Hlog2 & Hroles2).
    exists (new1 ++ new2)%list. split.
    + change (run (op :: ops) w) with (run ops (after (run_operation op) w)).
      rewrite Hlog2, Hlog1, app_assoc. reflexivity.
    + apply Forall_app. split; assumption.
Qed.

Lemma run_additions arrivals w :
  log (run (add_operation <$> arrivals) w) = (log w ++ (entry_of <$> arrivals))%list.
Proof.
  revert w. induction arrivals as [|[s m] arrivals IH]; intros w.
  - simpl. rewrite app_nil_r. reflexivity.
  - rewrite !fmap_cons.
    change (run (?op :: ?ops) w) with (run ops (after (run_operation op) w)).
    rewrite IH, (cons_middle (entry_of (s, m))), app_assoc. f_equal.
    destruct s; reflexivity.
Qed.

(** C7.  Each of [add_user_message], [add_bot_message] and
    [add_system_message] appends exactly one entry, with the role user,
    assistant or system, at the end of the log; whatever operations run, in
    whatever order, and whether they fault or not, the log they found is
    kept unchanged as the beginning of the log they leave and every entry
    added has one of the three roles; and the entries added by a sequence
    of additions stand in the log in the order of the additions. *)
Theorem chat_log_append_only :
  (∀ m w, log (after (add_user_message m) w) =
          (log w ++ [{| role := "user"; content := m |}])%list)
  ∧ (∀ m w, log (after (add_bot_message m) w) =
            (log w ++ [{| role := "assistant"; content := m |}])%list)
  ∧ (∀ m w, log (after (add_system_message m) w) =
            (log w ++ [{| role := "system"; content := m |}])%list)
  ∧ (∀ ops w, ∃ new, log (run ops w) = (log w ++ new)%list
                     ∧ Forall known_role new)
  ∧ (∀ ops w i e, log w !! i = Some e → log (run ops w) !! i = Some e)
  ∧ (∀ arrivals w, log (run (add_operation <$> arrivals) w) =
                   (log w ++ (entry_of <$> arrivals))%list).
Proof.
  split; [exact add_user_message_log|].
  split; [exact add_bot_message_log|].
  split; [exact add_system_message_log|].
  split; [exact run_log|].
  split; [|exact run_additions].
  intros ops w i e Hi. destruct (run_log ops w) as (new & -> & _).
  apply lookup_app_l_Some, Hi.
Qed.

(** * Further properties of the code *)

(** ** Splitting and joining paths *)

Lemma split_not_nil s : Str.split s ≠ [].
Proof.
  destruct s as [|c rest]; simpl; [discriminate|].
  destruct (Str.is_sep c); [discriminate|].
  destruct (Str.split rest); discriminate.
Qed.

Lemma has_sep_cons c rest :
  Str.has_char Str.sep (String c rest) = Str.is_sep c || Str.has_char Str.sep rest.
Proof. simpl. unfold Str.is_sep. rewrite (Ascii.eqb_sym c Str.sep). reflexivity. Qed.

Lemma split_without_sep n :
  Str.has_char Str.sep n = false → Str.split n = [n].
Proof.
  induction n as [|c rest IH]; [reflexivity|].
  rewrite has_sep_cons. intros H. apply orb_false_iff in H as [Hc Hrest].
  simpl. rewrite Hc, (IH Hrest). reflexivity.
Qed.

Lemma split_app a b :
  Str.split (a ++ "/" ++ b) = (Str.split a ++ Str.split b)%list.
Proof.
  induction a as [|c rest IH]; [reflexivity|].
  simpl. destruct (Str.is_sep c).
  - simpl in IH. rewrite IH. reflexivity.
  - simpl in IH. rewrite IH.
    destruct (Str.split rest) as [|h t] eqn:Hsplit; [|reflexivity].
    destruct (split_not_nil _ Hsplit).
Qed.

Lemma split_parts_without_sep s :
  Forall (λ x, Str.has_char Str.sep x = false) (Str.split s).
Proof.
  induction s as [|c rest IH]; simpl.
  - constructor; [reflexivity|constructor].
  - destruct (Str.is_sep c) eqn:Hc.
    + constructor; [reflexivity|exact IH].
    + destruct (Str.split rest) as [|h t]; [repeat constructor|].
      * rewrite has_sep_cons, Hc. reflexivity.
      * inversion IH as [|? ? Hh Ht]; subst.
        constructor; [|exact Ht]. rewrite has_sep_cons, Hc. exact Hh.
Qed.

Lemma upto_last_sep_without_sep n :
  Str.has_char Str.sep n = false → Str.upto_last_sep n = EmptyString.
Proof.
  destruct n as [|c rest]; [reflexivity|].
  rewrite has_sep_cons. intros H. simpl.
  apply orb_false_iff in H as [Hc Hrest]. rewrite Hc, Hrest. reflexivity.
Qed.

Lemma simple_name_facts n :
  simple_name n = true →
  Str.is_empty n = false ∧ Str.has_char Str.sep n = false
  ∧ Str.has_char Fs.nul n = false
  ∧ String.eqb n "." = false ∧ String.eqb n ".." = false.
Proof.
  unfold simple_name. intros H.
  repeat (apply andb_true_iff in H as [H ?]).
  repeat split; apply negb_true_iff; assumption.
Qed.

Lemma startswith_sep_without_sep n :
  Str.has_char Str.sep n = false → Str.startswith "/" n = false.
Proof.
  destruct n as [|c rest]; [reflexivity|].
  rewrite has_sep_cons. intros H. apply orb_false_iff in H as [Hc _].
  unfold Str.startswith.
  change (String.prefix "/" (String c rest))
    with (if ascii_dec "/" c then String.prefix "" rest else false).
  destruct (ascii_dec "/" c) as [<-|Hne]; [discriminate Hc|reflexivity].
Qed.

Lemma has_char_app c a b :
  Str.has_char c (a ++ b) = Str.has_char c a || Str.has_char c b.
Proof.
  induction a as [|d rest IH]; [reflexivity|].
  simpl. rewrite IH, orb_assoc. reflexivity.
Qed.

Lemma upto_last_sep_app D n :
  Str.has_char Str.sep n = false →
  Str.upto_last_sep (D ++ "/" ++ n) = D ++ "/".
Proof.
  intros Hn. induction D as [|c rest IH].
  - change (Str.upto_last_sep ("" ++ "/" ++ n))
      with (String "/" (Str.upto_last_sep n)).
    rewrite (upto_last_sep_without_sep n Hn). reflexivity.
  - change (String c rest ++ "/" ++ n) with (String c (rest ++ "/" ++ n)).
    change (String c rest ++ "/") with (String c (rest ++ "/")).
    simpl Str.upto_last_sep. rewrite (has_char_app Str.sep rest).
    replace (Str.has_char Str.sep ("/" ++ n)) with true by reflexivity.
    rewrite orb_true_r, orb_true_r, IH. reflexivity.
Qed.

Lemma startswith_sep_app D x :
  Str.is_empty D = false →
  Str.startswith "/" (D ++ x) = Str.startswith "/" D.
Proof.
  destruct D as [|c rest]; [discriminate|]. intros _. unfold Str.startswith.
  change (String.prefix "/" (String c rest ++ x))
    with (if ascii_dec "/" c then String.prefix "" (rest ++ x) else false).
  change (String.prefix "/" (String c rest))
    with (if ascii_dec "/" c then String.prefix "" rest else false).
  destruct (ascii_dec "/" c); [|reflexivity].
  destruct (rest ++ x); destruct rest; reflexivity.
Qed.

Lemma is_empty_app_sep D x : Str.is_empty (D ++ "/" ++ x) = false.
Proof. destruct D; reflexivity. Qed.

Lemma enter_simple loc n : simple_name n = true → Fs.enter loc n = n :: loc.
Proof.
  intros Hn. destruct (simple_name_facts n Hn) as (He & _ & _ & Hdot & Hdots).
  unfold Fs.enter. rewrite He, Hdot, Hdots. reflexivity.
Qed.

Lemma resolve_child d D n :
  simple_name n = true → Str.is_empty D = false →
  Fs.resolve d (D ++ "/" ++ n) = n :: Fs.resolve d D.
Proof.
  intros Hn HD. destruct (simple_name_facts n Hn) as (_ & Hsep & _).
  unfold Fs.resolve. rewrite split_app, (split_without_sep n Hsep).
  rewrite fold_left_app, (startswith_sep_app D _ HD). simpl.
  apply enter_simple, Hn.
Qed.

Lemma names_dir_child D n :
  simple_name n = true → Fs.names_dir (D ++ "/" ++ n) = false.
Proof.
  intros Hn. destruct (simple_name_facts n Hn) as (He & Hsep & _ & Hdot & Hdots).
  unfold Fs.names_dir. rewrite split_app, (split_without_sep n Hsep).
  rewrite List.last_last, He, Hdot, Hdots. reflexivity.
Qed.

Lemma dirname_child D n :
  Str.has_char Str.sep n = false →
  Str.all_sep (D ++ "/") = false →
  Str.rstrip_sep (D ++ "/") = D →
  PosixPath.dirname (D ++ "/" ++ n) = D.
Proof.
  intros Hn Hall Hstrip. unfold PosixPath.dirname.
  rewrite (upto_last_sep_app D n Hn), Hall.
  destruct D; [discriminate Hall|]. exact Hstrip.
Qed.

(** ** Writing into the workspace *)

(** The three last steps of [save_uploaded_file] again, with what they
    leave on the rest of the disk: every other location is as before, or is
    a directory made on the way to the target. *)
Lemma persist_run_frame path content w c parent :
  Str.has_char Fs.nul path = false →
  Str.is_empty (PosixPath.dirname path) = false →
  Str.has_char Fs.nul (PosixPath.dirname path) = false →
  Str.is_empty path = false →
  Fs.names_dir path = false →
  Fs.resolve (disk w) path = c :: parent →
  Fs.resolve (disk w) (PosixPath.dirname path) = parent →
  blocked (files w) parent = false →
  Fs.is_dir (files w) (c :: parent) = false →
  ∃ ns,
    (os_makedirs (PosixPath.dirname path) ;;
     f <- open_w path ;;
     file_write f content) w = (write_outcome content, set_nodes ns w)
    ∧ ns !! (c :: parent) = Some (File (written content))
    ∧ Fs.is_dir ns parent = true
    ∧ ∀ k, k ≠ c :: parent →
           ns !! k = files w !! k ∨ (ns !! k = Some Dir ∧ k `suffix_of` parent).
Proof.
  intros Hnul Hdempty Hdnul Hempty Hnames Htarget Hdir Hclear Hnotdir.
  destruct (makedirs_clear _ _ Hclear) as (ns1 & Hrun & Hisdir & Hframe).
  assert (Hnotdir1 : Fs.is_dir ns1 (c :: parent) = false).
  { unfold Fs.is_dir in *. destruct (Hframe (c :: parent)) as [->|[_ Hsuffix]].
    - exact Hnotdir.
    - apply suffix_length in Hsuffix. simpl in Hsuffix. lia. }
  assert (Hparent : ∀ data, Fs.is_dir (<[c :: parent := File data]> ns1) parent = true).
  { intros data. unfold Fs.is_dir in *. destruct parent as [|p ps]; [reflexivity|].
    rewrite lookup_insert_ne; [exact Hisdir|].
    intros Heq. apply (f_equal List.length) in Heq. simpl in Heq. lia. }
  unfold os_makedirs, open_w, checked_path.
  rewrite Hnul, Hdempty, Hdnul, Hempty, Hnames.
  unfold bind, gets, lift, modify, ret. simpl.
  rewrite Hdir. unfold files in Hrun. rewrite Hrun. simpl.
  change (Fs.resolve _ path) with (Fs.resolve (disk w) path). rewrite Htarget.
  rewrite (create_in_directory ns1 (c :: parent) Hnotdir1 Hisdir). simpl.
  assert (Hrest : ∀ data k, k ≠ c :: parent →
            <[c :: parent := File data]> ns1 !! k = files w !! k
            ∨ (<[c :: parent := File data]> ns1 !! k = Some Dir
               ∧ k `suffix_of` parent)).
  { intros data k Hk. rewrite lookup_insert_ne by congruence. apply Hframe. }
  destruct content as [| | | |s| |]; simpl;
    try (exists (<[c :: parent := File EmptyString]> ns1);
         split; [reflexivity|]; split; [apply lookup_insert_eq|];
         split; [apply Hparent|apply Hrest]).
  exists (<[c :: parent := File s]> ns1).
  split.
  { unfold bind, gets, modify, set_nodes. simpl.
    rewrite insert_insert_eq. reflexivity. }
  split; [apply lookup_insert_eq|].
  split; [apply Hparent|apply Hrest].
Qed.

Lemma target_path_simple n t :
  simple_name n = true →
  target_path n t =
  (if Str.startswith "image" t then "./workspace/media" else "./workspace")
  ++ "/" ++ n.
Proof.
  intros Hn. destruct (simple_name_facts n Hn) as (_ & Hsep & _).
  unfold target_path, PosixPath.join, workspace_root.
  destruct (Str.startswith "image" t); simpl fold_left;
    unfold PosixPath.join_step at 1;
    rewrite (startswith_sep_without_sep n Hsep); reflexivity.
Qed.

Lemma save_plain_name_run (n : string) (c : json) (t : string) (w : World) :
  simple_name n = true →
  blocked (files w) (target_dir (disk w) t) = false →
  Fs.is_dir (files w) (n :: target_dir (disk w) t) = false →
  ∃ ns,
    save_uploaded_file (media_item n c t) w = (write_outcome c, set_nodes ns w)
    ∧ ns !! (n :: target_dir (disk w) t) = Some (File (written c))
    ∧ Fs.is_dir ns (target_dir (disk w) t) = true
    ∧ ∀ k, k ≠ n :: target_dir (disk w) t →
           ns !! k = files w !! k
           ∨ (ns !! k = Some Dir ∧ k `suffix_of` target_dir (disk w) t).
Proof.
  intros Hn Hclear Hnotdir.
  destruct (simple_name_facts n Hn) as (He & Hsep & Hnul & Hdot & Hdots).
  rewrite save_uploaded_file_item, (target_path_simple n t Hn).
  unfold target_dir in *.
  destruct (Str.startswith "image" t);
    apply persist_run_frame;
    rewrite ?dirname_child by (assumption || reflexivity);
    rewrite ?resolve_child by (assumption || reflexivity);
    first [ assumption | reflexivity | apply is_empty_app_sep
          | apply names_dir_child, Hn ].
Qed.



(** X2.  A media item whose content is not a string still costs the file
    it names: [open] has truncated the file before [write] rejects the
    content, so an existing file with the item's name is left empty and the
    method ends with TypeError. *)
Theorem non_string_content_truncates (n : string) (c : json) (t old : string)
    (w : World) :
  simple_name n = true →
  (∀ s, c ≠ JStr s) →
  blocked (files w) (target_dir (disk w) t) = false →
  files w !! (n :: target_dir (disk w) t) = Some (File old) →
  ∃ ns,
    save_uploaded_file (media_item n c t) w = (Raised TypeError, set_nodes ns w)
    ∧ ns !! (n :: target_dir (disk w) t) = Some (File EmptyString).
Proof.
  intros Hn Hc Hclear Hold.
  destruct (save_plain_name_run n c t w Hn Hclear) as (ns & Hrun & Hfile & _).
  { unfold Fs.is_dir. rewrite Hold. reflexivity. }
  exists ns. destruct c as [| | | |s| |]; try (split; assumption).
  destruct (Hc s eq_refl).
Qed.

Lemma non_string_content_truncates_witness :
  simple_name "a.txt" = true
  ∧ (∀ s, JInt 7 ≠ JStr s)
  ∧ blocked (files used_world) (target_dir (disk used_world) "text/plain") = false
  ∧ files used_world !! ("a.txt" :: target_dir (disk used_world) "text/plain")
    = Some (File "old")
  ∧ ∃ ns,
      save_uploaded_file (media_item "a.txt" (JInt 7) "text/plain") used_world
        = (Raised TypeError, set_nodes ns used_world)
      ∧ ns !! ("a.txt" :: target_dir (disk used_world) "text/plain")
        = Some (File EmptyString).
Proof.
  assert (Hc : ∀ s, JInt 7 ≠ JStr s) by (intros s; discriminate).
  split; [reflexivity|]. split; [exact Hc|].
  do 2 (split; [vm_compute; reflexivity|]).
  apply (non_string_content_truncates "a.txt" (JInt 7) "text/plain" "old");
    [reflexivity | exact Hc | vm_compute; reflexivity | vm_compute; reflexivity].
Defined.

(** ** Direct uploads with a plain name *)






(** ** What the writer rejects *)

(** X5.  [save_uploaded_file] rejects an item before it touches the disk:
    an item that is not an object, or whose type is not a string, ends it
    with AttributeError, and a name that is not a string with TypeError; in
    each case nothing has been written and the world is as it was. *)
Theorem save_uploaded_file_rejects (w : World) :
  (∀ v, (∀ fd, v ≠ JObj fd) →
        save_uploaded_file v w = (Raised AttributeError, w))
  ∧ (∀ fd ty, fd !! "type" = Some ty → (∀ s, ty ≠ JStr s) →
        save_uploaded_file (JObj fd) w = (Raised AttributeError, w))
  ∧ (∀ fd nm, (∀ ty, fd !! "type" = Some ty → ∃ s, ty = JStr s) →
        fd !! "name" = Some nm → (∀ s, nm ≠ JStr s) →
        save_uploaded_file (JObj fd) w = (Raised TypeError, w)).
Proof.
  repeat split.
  - intros v Hv. destruct v; try reflexivity. destruct (Hv fields eq_refl).
  - intros fd ty Hty Hns. unfold save_uploaded_file, bind, py_get, ret.
    rewrite Hty. destruct ty; try reflexivity. destruct (Hns s eq_refl).
  - intros fd nm Hty Hnm Hns.
    unfold save_uploaded_file, bind, py_get, ret, py_startswith, os_path_join.
    rewrite Hnm.
    destruct (fd !! "type") as [ty|] eqn:Etype.
    + destruct (Hty ty eq_refl) as [s ->].
      destruct (Str.startswith "image" s);
        destruct nm as [| | | |x| |]; try reflexivity;
        destruct (Hns x eq_refl).
    + destruct nm as [| | | |x| |]; try reflexivity. destruct (Hns x eq_refl).
Qed.

Lemma save_uploaded_file_rejects_witness :
  save_uploaded_file (JStr "a.png") used_world = (Raised AttributeError, used_world)
  ∧ save_uploaded_file (JObj {[ "name" := JStr "a.txt"; "type" := JInt 3 ]})
      used_world = (Raised AttributeError, used_world)
  ∧ save_uploaded_file (JObj {[ "name" := JInt 5 ]}) used_world
    = (Raised TypeError, used_world).
Proof.
  destruct (save_uploaded_file_rejects used_world) as (Hitem & Htype & Hname).
  split; [apply Hitem; intros fd; discriminate|].
  split.
  - apply (Htype _ (JInt 3)); [reflexivity|intros s; discriminate].
  - apply (Hname _ (JInt 5)); [|reflexivity|intros s; discriminate].
    intros ty Hty. vm_compute in Hty. discriminate Hty.
Defined.

(** ** Names that leave the workspace *)





(** ** Thumbnails *)

Lemma name_of_child D n :
  Str.has_char Str.sep n = false → PosixPath.kept n = true →
  PosixPath.name (D ++ "/" ++ n) = n.
Proof.
  intros Hsep Hkept. unfold PosixPath.name.
  rewrite split_app, (split_without_sep n Hsep), List.filter_app.
  simpl List.filter at 2. rewrite Hkept. apply List.last_last.
Qed.

Lemma last_keeps {A} (P : A → Prop) (l : list A) (d : A) :
  Forall P l → P d → P (List.last l d).
Proof.
  intros Hl Hd. induction Hl as [|x l Hx Hl IH]; [exact Hd|].
  simpl. destruct l; [exact Hx|exact IH].
Qed.

Lemma name_without_sep p : Str.has_char Str.sep (PosixPath.name p) = false.
Proof.
  unfold PosixPath.name. apply last_keeps; [|reflexivity].
  pose proof (split_parts_without_sep p) as Hparts.
  induction Hparts as [|x l Hx Hl IH]; simpl; [constructor|].
  destruct (PosixPath.kept x); [constructor; assumption|exact IH].
Qed.

(** X7.  The thumbnail of a file depends on its last component only: for a
    path [D/n], whatever the directory part [D], the stub returns the record
    whose URL is ["/thumbnails/" ++ n ++ ".thumb"]. *)
Theorem thumbnail_ignores_directory (D n : string) (w : World) :
  Str.has_char Str.sep n = false →
  PosixPath.kept n = true →
  generate_thumbnail (JStr (D ++ "/" ++ n)) w =
  (Returned (JObj {[ "thumbnail_url" := JStr ("/thumbnails/" ++ n ++ ".thumb");
                     "size" := JStr "100x100" ]}), w).
Proof.
  intros Hsep Hkept. rewrite generate_thumbnail_run. unfold thumbnail_record.
  rewrite (name_of_child D n Hsep Hkept). reflexivity.
Qed.

Lemma thumbnail_ignores_directory_witness :
  Str.has_char Str.sep "cat.png" = false
  ∧ PosixPath.kept "cat.png" = true
  ∧ generate_thumbnail (JStr ("/home/app/./workspace/media" ++ "/" ++ "cat.png"))
      fresh_world =
    (Returned (JObj {[ "thumbnail_url" := JStr "/thumbnails/cat.png.thumb";
                       "size" := JStr "100x100" ]}), fresh_world).
Proof.
  split; [reflexivity|]. split; [reflexivity|].
  apply (thumbnail_ignores_directory "/home/app/./workspace/media" "cat.png");
    reflexivity.
Defined.

(** X8.  Whatever path it is given, the stub puts a name without any
    separator between ["/thumbnails/"] and [".thumb"]: the URL never points
    below or above the thumbnails directory. *)
Theorem thumbnail_url_stays_flat (p : string) (w : World) :
  ∃ n, generate_thumbnail (JStr p) w =
       (Returned (JObj {[ "thumbnail_url" := JStr ("/thumbnails/" ++ n ++ ".thumb");
                          "size" := JStr "100x100" ]}), w)
       ∧ Str.has_char Str.sep n = false.
Proof.
  exists (PosixPath.name p). split; [reflexivity|apply name_without_sep].
Qed.

(** X9.  A frame with type "thumbnail_request": when its filePath is a
    string (or is absent, which stands for ""), exactly one
    thumbnail_response frame is sent, carrying the stub's record and the
    path as it was given; when its filePath is anything else, the handler
    ends with TypeError and nothing is sent. *)
Theorem thumbnail_request_answer (d : gmap string json) (w : World) :
  d !! "type" = Some (JStr "thumbnail_request") →
  handle_frame (JObj d) w =
  match path_of d with
  | JStr p =>
      (Returned tt,
       {| app := app w; disk := disk w;
          sent := sent w ++ [thumbnail_response (thumbnail_record p) (JStr p)];
          clock_ms := clock_ms w |})
  | _ => (Raised TypeError, w)
  end.
Proof.
  intros Htype. unfold handle_frame.
  unfold bind at 1. rewrite type_is_object, Htype.
  replace (eq_str (JStr "thumbnail_request") "message") with false by reflexivity.
  unfold bind at 1. rewrite type_is_object, Htype.
  replace (eq_str (JStr "thumbnail_request") "file_upload") with false by reflexivity.
  unfold bind at 1. rewrite type_is_object, Htype.
  replace (eq_str (JStr "thumbnail_request") "thumbnail_request") with true
    by reflexivity.
  unfold bind at 1. unfold py_get at 1, ret at 1. fold (path_of d).
  destruct (path_of d); reflexivity.
Qed.

Lemma thumbnail_request_answer_witness :
  (<["filePath" := JInt 4]> bare_thumbnail_fields) !! "type"
    = Some (JStr "thumbnail_request")
  ∧ handle_frame (JObj (<["filePath" := JInt 4]> bare_thumbnail_fields)) fresh_world
    = (Raised TypeError, fresh_world).
Proof.
  assert (Htype : (<["filePath" := JInt 4]> bare_thumbnail_fields) !! "type"
                  = Some (JStr "thumbnail_request")) by reflexivity.
  split; [exact Htype|].
  rewrite (thumbnail_request_answer
             (<["filePath" := JInt 4]> bare_thumbnail_fields) fresh_world Htype).
  reflexivity.
Defined.

(** ** Frames that are not objects *)

(** X10.  A decoded frame that is not an object never changes anything.  A
    list without the element "type" and a string without the substring
    "type" are passed over; every other value (a number, a boolean, null, a
    list holding "type", a string containing "type") ends the handler with
    TypeError. *)
Theorem non_object_frame (data : json) (w : World) :
  (∀ d, data ≠ JObj d) →
  handle_frame data w =
  (if passed_over data then Returned tt else Raised TypeError, w).
Proof.
  intros Hdata. destruct data as [| | | |s|items|d]; try reflexivity.
  - unfold handle_frame, type_is, bind, py_in, py_getitem, ret, raise, passed_over.
    destruct (Str.contains "type" s); reflexivity.
  - unfold handle_frame, type_is, bind, py_in, py_getitem, ret, raise, passed_over.
    destruct (existsb _ items); reflexivity.
  - destruct (Hdata d eq_refl).
Qed.

Lemma non_object_frame_witness :
  (∀ d, JArr [JStr "type"; JStr "message"] ≠ JObj d)
  ∧ handle_frame (JArr [JStr "type"; JStr "message"]) fresh_world
    = (Raised TypeError, fresh_world)
  ∧ handle_frame (JArr [JStr "message"]) fresh_world = (Returned tt, fresh_world).
Proof.
  split; [intros d; discriminate|]. split.
  - apply (non_object_frame (JArr [JStr "type"; JStr "message"]) fresh_world).
    intros d; discriminate.
  - apply (non_object_frame (JArr [JStr "message"]) fresh_world).
    intros d; discriminate.
Defined.

(** ** The loop of a connection *)

Lemma for_each_app {A} (xs ys : list A) (body : A → M unit) w :
  for_each (xs ++ ys) body w =
  match for_each xs body w with
  | (Returned _, w1) => for_each ys body w1
  | (Raised e, w1) => (Raised e, w1)
  end.
Proof.
  revert w. induction xs as [|x xs IH]; intros w; [reflexivity|].
  simpl. unfold bind. destruct (body x w) as [[[]|e] w1]; [apply IH|reflexivity].
Qed.

(** X11.  Once a frame has ended the handler with an exception, no later
    frame of the connection is handled: whatever frames follow, the outcome
    and the world are those of the frames up to the fault. *)
Theorem fault_ends_connection (xs ys : list json) (w : World) (e : exn) :
  (handle_client xs w).1 = Raised e →
  handle_client (xs ++ ys) w = handle_client xs w.
Proof.
  unfold handle_client, except_pass. rewrite for_each_app.
  destruct (for_each xs handle_frame w) as [[[]|x] w1]; simpl.
  - discriminate.
  - intros _. reflexivity.
Qed.

Lemma fault_ends_connection_witness :
  (handle_client [JObj text_fields; JObj string_media_fields] fresh_world).1
    = Raised AttributeError
  ∧ handle_client ([JObj text_fields; JObj string_media_fields]
                   ++ [JObj again_fields; JObj upload_fields]) fresh_world
    = handle_client [JObj text_fields; JObj string_media_fields] fresh_world.
Proof.
  assert (H : (handle_client [JObj text_fields; JObj string_media_fields]
                 fresh_world).1 = Raised AttributeError)
    by (vm_compute; reflexivity).
  split; [exact H|].
  exact (fault_ends_connection _ [JObj again_fields; JObj upload_fields]
           fresh_world AttributeError H).
Defined.

Lemma plain_message_run d w :
  plain_message d →
  handle_frame (JObj d) w =
  (Returned tt,
   {| app := app (after (add_user_message (content_of d)) w);
      disk := disk w;
      sent := sent w ++ scripted_frames;
      clock_ms := clock_ms w + 1000 |}).
Proof.
  intros [Htype Hmedia]. rewrite (message_frame_run d w Htype).
  unfold save_media, bind, py_in, ret. rewrite Hmedia. reflexivity.
Qed.

Lemma plain_messages_run ds w :
  Forall plain_message ds →
  ∃ w', for_each (JObj <$> ds) handle_frame w = (Returned tt, w')
        ∧ sent w' = (sent w ++ mjoin ((λ _, scripted_frames) <$> ds))%list
        ∧ log w' =
          (log w ++ ((λ d, {| role := "user"; content := content_of d |}) <$> ds))%list
        ∧ clock_ms w' = clock_ms w + 1000 * Z.of_nat (List.length ds)
        ∧ disk w' = disk w.
Proof.
  intros Hds. revert w. induction Hds as [|d ds Hd Hds IH]; intros w.
  - exists w. simpl. rewrite !app_nil_r. repeat split. lia.
  - rewrite fmap_cons. simpl for_each. unfold bind.
    rewrite (plain_message_run d w Hd).
    destruct (IH {| app := app (after (add_user_message (content_of d)) w);
                    disk := disk w;
                    sent := sent w ++ scripted_frames;
                    clock_ms := clock_ms w + 1000 |})
      as (w' & Hrun & Hsent & Hlog & Hclock & Hdisk).
    exists w'. split; [exact Hrun|].
    rewrite Hsent, Hlog, Hclock, Hdisk. unfold log. simpl.
    rewrite <- !app_assoc. repeat split.
    rewrite Nat2Z.inj_succ. lia.
Qed.

(** X12.  Any number of frames with type "message" and no media field,
    handled one after the other, never fault: each is answered with the
    whole script, each adds its user entry to the log in the order of
    arrival, each takes 1000 ms of sleeps, and the disk is not touched. *)
Theorem plain_messages (ds : list (gmap string json)) (w : World) :
  Forall plain_message ds →
  (handle_client (JObj <$> ds) w).1 = Returned tt
  ∧ sent (after (handle_client (JObj <$> ds)) w) =
    (sent w ++ mjoin ((λ _, scripted_frames) <$> ds))%list
  ∧ log (after (handle_client (JObj <$> ds)) w) =
    (log w ++ ((λ d, {| role := "user"; content := content_of d |}) <$> ds))%list
  ∧ clock_ms (after (handle_client (JObj <$> ds)) w) =
    clock_ms w + 1000 * Z.of_nat (List.length ds)
  ∧ disk (after (handle_client (JObj <$> ds)) w) = disk w.
Proof.
  intros Hds. destruct (plain_messages_run ds w Hds) as (w' & Hrun & Hrest).
  unfold after, handle_client, except_pass. rewrite Hrun. simpl.
  split; [reflexivity|exact Hrest].
Qed.

Lemma plain_messages_witness :
  Forall plain_message [text_fields; bare_fields; again_fields]
  ∧ (handle_client (JObj <$> [text_fields; bare_fields; again_fields])
       fresh_world).1 = Returned tt
  ∧ List.length (sent (after (handle_client
                         (JObj <$> [text_fields; bare_fields; again_fields]))
                         fresh_world)) = 18%nat.
Proof.
  assert (H : Forall plain_message [text_fields; bare_fields; again_fields]).
  { repeat constructor. }
  destruct (plain_messages _ fresh_world H) as (Hok & Hsent & _).
  split; [exact H|]. split; [exact Hok|]. rewrite Hsent. reflexivity.
Defined.

(** ** The window and the log *)

(** The branches of [handle_frame] other than the [message] one leave the
    application object alone. *)
Lemma other_branches_app data :
  preserves app
    (is_upload <- type_is data "file_upload" ;;
     if is_upload then handle_file_upload data
     else
       is_thumbnail <- type_is data "thumbnail_request" ;;
       if is_thumbnail then
         file_path <- py_get data "filePath" (JStr "") ;;
         thumbnail_data <- generate_thumbnail file_path ;;
         send (thumbnail_response thumbnail_data file_path)
       else ret tt).
Proof.
  apply preserves_bind; [apply type_is_preserves|intros is_upload].
  destruct is_upload.
  { apply (handle_file_upload_preserves app (λ _ _, eq_refl)). }
  apply preserves_bind; [apply type_is_preserves|intros is_thumbnail].
  destruct is_thumbnail; [|apply preserves_ret].
  apply preserves_bind; [apply py_get_preserves|intros file_path].
  apply preserves_bind; [apply generate_thumbnail_preserves|intros thumbnail_data].
  apply preserves_modify. intros w. reflexivity.
Qed.

Lemma message_frame_app d w :
  d !! "type" = Some (JStr "message") →
  app (after (handle_frame (JObj d)) w) =
  app (after (add_user_message (content_of d)) w).
Proof.
  intros Htype. unfold after at 1. rewrite (message_frame_run _ _ Htype).
  pose proof (save_media_preserves app (λ _ _, eq_refl) (JObj d)
                (after (add_user_message (content_of d)) w)) as Happ.
  unfold after at 1 in Happ.
  destruct (save_media (JObj d) _) as [[[]|e] w2]; simpl in *; exact Happ.
Qed.

(** A frame changes the application object as [add_user_message] does, or
    not at all. *)
Lemma handle_frame_app data w :
  app (after (handle_frame data) w) = app w
  ∨ ∃ c, app (after (handle_frame data) w) = app (after (add_user_message c) w).
Proof.
  pose proof (type_is_preserves app data "message" w) as Htype.
  pose proof (other_branches_app data) as Hother.
  destruct (type_is data "message" w) as [[[|]|e] w1] eqn:Hrun.
  - destruct (type_is_true _ _ _ _ Hrun) as (d & -> & Hd).
    right. exists (content_of d). apply message_frame_app, Hd.
  - left. unfold after, handle_frame, bind. rewrite Hrun.
    unfold after in Htype. rewrite Hrun in Htype. simpl in Htype.
    rewrite <- Htype. apply Hother.
  - left. unfold after, handle_frame, bind. rewrite Hrun.
    unfold after in Htype. rewrite Hrun in Htype. exact Htype.
Qed.








(** ** The connection button *)

Lemma run_operation_connection op w :
  is_connected (app (after (run_operation op) w))
    = xorb (is_connected (app w)) (is_toggle op)
  ∧ (is_toggle op = false →
     connect_button (app (after (run_operation op) w)) = connect_button (app w))
  ∧ (is_toggle op = true → button_agrees (app (after (run_operation op) w))).
Proof.
  destruct op as [m|m|m|text| |m|m| |data]; simpl run_operation; simpl is_toggle;
    rewrite ?xorb_false_r;
    try (split; [reflexivity|split; [reflexivity|discriminate]]).
  - unfold after, send_message, bind, gets.
    destruct (Str.is_empty (message_entry (app w)));
      (split; [reflexivity|split; [reflexivity|discriminate]]).
  - unfold after, toggle_connection, bind, gets, button_agrees.
    destruct (is_connected (app w)); (split; [reflexivity|]);
      (split; [discriminate|reflexivity]).
  - destruct (handle_frame_app data w) as [->|[c ->]];
      (split; [reflexivity|split; [reflexivity|discriminate]]).
Qed.

(** X14.  Only [toggle_connection] changes the connection flag: after any
    operations the flag is the one at the start, flipped once for each click
    on the button, whatever frames were handled or faulted in between; and
    the label of the button keeps agreeing with the flag ("Disconnect" when
    connected, "Connect" when not). *)
Theorem connection_flag_counts_clicks (ops : list operation) (w : World) :
  is_connected (app (run ops w))
    = xorb (is_connected (app w)) (Nat.odd (List.length (List.filter is_toggle ops)))
  ∧ (button_agrees (app w) → button_agrees (app (run ops w))).
Proof.
  revert w. induction ops as [|op ops IH]; intros w.
  - simpl. rewrite xorb_false_r. split; [reflexivity|exact id].
  - change (run (op :: ops) w) with (run ops (after (run_operation op) w)).
    destruct (IH (after (run_operation op) w)) as [Hflag Hbutton].
    destruct (run_operation_connection op w) as (Hop & Hsame & Htoggle).
    split.
    + rewrite Hflag, Hop. simpl List.filter.
      destruct (is_toggle op); simpl List.length.
      * rewrite Nat.odd_succ, <- Nat.negb_odd.
        destruct (is_connected (app w)), (Nat.odd _); reflexivity.
      * rewrite xorb_false_r. reflexivity.
    + intros Hagree. apply Hbutton. destruct (is_toggle op) eqn:Hkind.
      * apply Htoggle. reflexivity.
      * unfold button_agrees in *. rewrite Hop, (Hsame eq_refl), xorb_false_r.
        exact Hagree.
Qed.

Lemma connection_flag_counts_clicks_witness :
  button_agrees (app fresh_world)
  ∧ is_connected (app (run [ToggleConnection; Frame (JObj string_media_fields);
                            ToggleConnection; ToggleConnection] fresh_world)) = true
  ∧ button_agrees (app (run [ToggleConnection; Frame (JObj string_media_fields);
                             ToggleConnection; ToggleConnection] fresh_world)).
Proof.
  assert (H : button_agrees (app fresh_world)) by reflexivity.
  destruct (connection_flag_counts_clicks
              [ToggleConnection; Frame (JObj string_media_fields);
               ToggleConnection; ToggleConnection] fresh_world) as [Hflag Hbutton].
  split; [exact H|]. split; [rewrite Hflag; reflexivity|exact (Hbutton H)].
Defined.

(** ** Sending from the window *)

(** X15.  [send_message] always returns and always leaves the entry field
    empty; it adds the text of the field to the log as one user entry when
    the field was not empty and nothing when it was; so a second
    [send_message] right after the first changes nothing. *)
Theorem send_message_clears_the_entry (w : World) :
  (send_message w).1 = Returned tt
  ∧ message_entry (app (after send_message w)) = ""
  ∧ log (after send_message w) =
    (log w ++ if Str.is_empty (message_entry (app w)) then []
              else [{| role := "user"; content := JStr (message_entry (app w)) |}])%list
  ∧ send_message (after send_message w) = (Returned tt, after send_message w).
Proof.
  unfold after, send_message, bind, gets, log.
  destruct (message_entry (app w)) as [|c rest] eqn:Hentry; simpl.
  - rewrite app_nil_r, Hentry. repeat split.
  - repeat split.
Qed.

(** X16.  One round of the local conversation: the user types a text that
    is not empty, sends it, and the typing thread runs.  The log gains the
    user's text and then the first canned answer, whatever the text was; the
    entry field and the typing indicator end empty; 1000 ms pass; no frame
    is sent and the disk is not touched. *)
Theorem local_round (text : string) (w : World) :
  text ≠ "" →
  let w' := run [TypeEntry text; SendMessage; SimulateTyping (JStr text)] w in
  log w' =
    (log w ++
     [ {| role := "user"; content := JStr text |};
       {| role := "assistant";
          content := JStr "I can help you with that. What specific task are we working on?" |} ])%list
  ∧ message_entry (app w') = ""
  ∧ typing_indicator (app w') = ""
  ∧ clock_ms w' = clock_ms w + 1000
  ∧ sent w' = sent w
  ∧ disk w' = disk w.
Proof.
  intros Htext. destruct text as [|c rest]; [contradiction|].
  unfold log. simpl. rewrite <- app_assoc. repeat split.
Qed.

Lemma local_round_witness :
  "hello" ≠ ""
  ∧ log (run [TypeEntry "hello"; SendMessage; SimulateTyping (JStr "hello")]
           fresh_world) =
    [ {| role := "user"; content := JStr "hello" |};
      {| role := "assistant";
         content := JStr "I can help you with that. What specific task are we working on?" |} ].
Proof.
  assert (H : "hello" ≠ "") by discriminate.
  split; [exact H|]. exact (proj1 (local_round "hello" fresh_world H)).
Defined.

(** ** What a frame logs and what it leaves on the disk *)

(** X17.  What any decoded frame adds to the chat log, whether it is
    handled to the end or faults: one user entry with the frame's content
    (or "" when it has none) when the frame is an object with type
    "message", and nothing in every other case. *)
Theorem frame_log_effect (data : json) (w : World) :
  log (after (handle_frame data) w) = (log w ++ logged_by data)%list.
Proof.
  assert (Hnone : log (after (handle_frame data) w) = log w →
                  logged_by data = [] →
                  log (after (handle_frame data) w) = (log w ++ logged_by data)%list).
  { intros -> ->. rewrite app_nil_r. reflexivity. }
  pose proof (type_is_preserves log data "message" w) as Htype.
  pose proof (other_branches_log data) as Hother.
  destruct (type_is data "message" w) as [[[|]|e] w1] eqn:Hrun.
  - destruct (type_is_true _ _ _ _ Hrun) as (d & -> & Hd).
    rewrite (message_frame_log d w Hd). unfold logged_by. rewrite Hd. reflexivity.
  - apply Hnone.
    + unfold after, handle_frame, bind. rewrite Hrun.
      unfold after in Htype. rewrite Hrun in Htype. simpl in Htype.
      rewrite <- Htype. apply Hother.
    + destruct data as [| | | | | |d]; try reflexivity.
      rewrite type_is_object in Hrun. injection Hrun as Htest _.
      unfold logged_by. rewrite Htest. reflexivity.
  - apply Hnone.
    + unfold after, handle_frame, bind. rewrite Hrun.
      unfold after in Htype. rewrite Hrun in Htype. exact Htype.
    + destruct data as [| | | | | |d]; try reflexivity.
      rewrite type_is_object in Hrun. discriminate Hrun.
Qed.

(** X18.  A frame that is an object, is not a [file_upload] and has no
    media field never touches the disk, whatever else it holds and however
    it ends. *)
Theorem disk_untouched_without_upload (d : gmap string json) (w : World) :
  d !! "type" ≠ Some (JStr "file_upload") →
  d !! "media" = None →
  disk (after (handle_frame (JObj d)) w) = disk w.
Proof.
  intros Hupload Hmedia.
  destruct (match d !! "type" with Some v => eq_str v "message" | None => false end)
    eqn:Hmessage.
  - assert (Htype : d !! "type" = Some (JStr "message")).
    { destruct (d !! "type") as [v|]; [|discriminate].
      apply eq_str_true in Hmessage. subst v. reflexivity. }
    unfold after. rewrite (plain_message_run d w (conj Htype Hmedia)). reflexivity.
  - unfold after, handle_frame.
    unfold bind at 1. rewrite type_is_object, Hmessage.
    unfold bind at 1. rewrite type_is_object, (type_unmatched d _ Hupload).
    assert (Hrest : preserves disk
              (is_thumbnail <- type_is (JObj d) "thumbnail_request" ;;
               if is_thumbnail then
                 file_path <- py_get (JObj d) "filePath" (JStr "") ;;
                 thumbnail_data <- generate_thumbnail file_path ;;
                 send (thumbnail_response thumbnail_data file_path)
               else ret tt)).
    { apply preserves_bind; [apply type_is_preserves|intros is_thumbnail].
      destruct is_thumbnail; [|apply preserves_ret].
      apply preserves_bind; [apply py_get_preserves|intros file_path].
      apply preserves_bind; [apply generate_thumbnail_preserves|intros ?].
      apply preserves_modify. intros w0. reflexivity. }
    apply Hrest.
Qed.

Lemma disk_untouched_without_upload_witness :
  bare_thumbnail_fields !! "type" ≠ Some (JStr "file_upload")
  ∧ bare_thumbnail_fields !! "media" = None
  ∧ disk (after (handle_frame (JObj bare_thumbnail_fields)) used_world)
    = disk used_world.
Proof.
  assert (H : bare_thumbnail_fields !! "type" ≠ Some (JStr "file_upload")).
  { vm_compute. intros [=]. }
  split; [exact H|]. split; [reflexivity|].
  exact (disk_untouched_without_upload bare_thumbnail_fields used_world H eq_refl).
Defined.

(** ** Missing keys *)

(** X19.  An item or a frame without a key is written as if the key held
    its default: for [save_uploaded_file] the name "unknown", the content ""
    and the type "text/plain"; for [handle_file_upload] the content "" and
    the name "file".  The two writers do not share the default name. *)
Theorem missing_keys_take_defaults (fd : gmap string json) (w : World) :
  (fd !! "name" = None →
   save_uploaded_file (JObj fd) w
   = save_uploaded_file (JObj (<["name" := JStr "unknown"]> fd)) w)
  ∧ (fd !! "content" = None →
     save_uploaded_file (JObj fd) w
     = save_uploaded_file (JObj (<["content" := JStr ""]> fd)) w)
  ∧ (fd !! "type" = None →
     save_uploaded_file (JObj fd) w
     = save_uploaded_file (JObj (<["type" := JStr "text/plain"]> fd)) w)
  ∧ (fd !! "name" = None →
     handle_file_upload (JObj fd) w
     = handle_file_upload (JObj (<["name" := JStr "file"]> fd)) w)
  ∧ (fd !! "content" = None →
     handle_file_upload (JObj fd) w
     = handle_file_upload (JObj (<["content" := JStr ""]> fd)) w).
Proof.
  repeat split; intros Hnone;
    unfold save_uploaded_file, handle_file_upload, bind, py_get, ret;
    rewrite ?lookup_insert_eq, ?lookup_insert_ne by discriminate;
    rewrite Hnone; reflexivity.
Qed.

Lemma missing_keys_take_defaults_witness :
  (∅ : gmap string json) !! "name" = None
  ∧ save_uploaded_file (JObj ∅) used_world
    = save_uploaded_file (JObj {[ "name" := JStr "unknown" ]}) used_world
  ∧ handle_file_upload (JObj ∅) used_world
    = handle_file_upload (JObj {[ "name" := JStr "file" ]}) used_world.
Proof.
  destruct (missing_keys_take_defaults ∅ used_world) as (Hsave & _ & _ & Hupload & _).
  split; [reflexivity|]. split; [exact (Hsave eq_refl)|exact (Hupload eq_refl)].
Defined.

(** ** A message with a media item *)


